(** * DMR AI Video Generator: a model of [app.py] and its specification

    The program is a three-stage pipeline (scene segmentation, per-scene
    asset generation, video assembly) driven by a Streamlit script.  The
    stages are embedded as functions in a state-and-exception monad over a
    world made of a file system, a log of the calls made to the outside
    (OpenAI, HTTP, ElevenLabs, the disk, MoviePy) and the widgets shown to
    the user.  The outside is a record of oracles; what the program does
    with their answers is translated from the source line by line. *)

From Stdlib Require Import QArith DecimalNat.
From stdpp Require Import gmap strings list fin_maps.

Set Default Proof Using "Type".
Open Scope nat_scope.

(** ** Python strings

    A Python [str] is a sequence of Unicode code points. *)

Abbreviation str := (list N).
Abbreviation bytes := (list Byte.byte).

(** A literal of the source, code point by code point. *)
Definition py (s : string) : str :=
  Ascii.N_of_ascii <$> String.list_ascii_of_string s.

(** [bool(s)] for a string: the empty string is falsy. *)
Definition truthy (s : str) : bool :=
  match s with [] => false | _ :: _ => true end.

(** [ch.isspace()], as [str.strip()] without arguments tests it
    (CPython: [_Py_ascii_whitespace] and [_PyUnicode_IsWhitespace]). *)
Definition isspace (c : N) : bool :=
  ((9 <=? c) && (c <=? 13) || (28 <=? c) && (c <=? 32)
   || (c =? 133) || (c =? 160) || (c =? 5760)
   || (8192 <=? c) && (c <=? 8202)
   || (c =? 8232) || (c =? 8233) || (c =? 8239) || (c =? 8287)
   || (c =? 12288))%N.

Fixpoint lstrip (s : str) : str :=
  match s with
  | [] => []
  | c :: t => if isspace c then lstrip t else s
  end.

Fixpoint rstrip (s : str) : str :=
  match s with
  | [] => []
  | c :: t =>
      match rstrip t with
      | [] => if isspace c then [] else [c]
      | t' => c :: t'
      end
  end.

(** [s.strip()] *)
Definition strip (s : str) : str := rstrip (lstrip s).

(** [s.split(sep)] for a separator of one character: one piece more than
    there are separators, empty pieces kept. *)
Fixpoint split (sep : N) (s : str) : list str :=
  match s with
  | [] => [[]]
  | c :: t =>
      if (c =? sep)%N then [] :: split sep t
      else match split sep t with
           | h :: r => (c :: h) :: r
           | [] => [[c]]
           end
  end.

Definition NL : N := 10.

(** The decimal digits of [str(i)]. *)
Fixpoint uint_chars (u : Decimal.uint) : str :=
  match u with
  | Decimal.Nil => []
  | Decimal.D0 u => 48%N :: uint_chars u
  | Decimal.D1 u => 49%N :: uint_chars u
  | Decimal.D2 u => 50%N :: uint_chars u
  | Decimal.D3 u => 51%N :: uint_chars u
  | Decimal.D4 u => 52%N :: uint_chars u
  | Decimal.D5 u => 53%N :: uint_chars u
  | Decimal.D6 u => 54%N :: uint_chars u
  | Decimal.D7 u => 55%N :: uint_chars u
  | Decimal.D8 u => 56%N :: uint_chars u
  | Decimal.D9 u => 57%N :: uint_chars u
  end.

(** [f"{i}"] for a non-negative integer. *)
Definition str_of_nat (i : nat) : str := uint_chars (Nat.to_uint i).

(** [os.path.join(a, b)] (posixpath, two components). *)
Definition SLASH : N := 47.

Definition path_join (a b : str) : str :=
  match b with
  | c :: _ => if (c =? SLASH)%N then b
              else match last a with
                   | None => b
                   | Some l => if (l =? SLASH)%N then a ++ b else a ++ SLASH :: b
                   end
  | [] => match last a with
          | None => b
          | Some l => if (l =? SLASH)%N then a ++ b else a ++ SLASH :: b
          end
  end.

(** ** Scene segmentation, the pure part (lines 35-37)

    [content] is [response.choices[0].message.content]. *)
Definition scenes_of_content (prompt_text content : str) : list str :=
  let scenes_text := split NL (strip content) in
  if length scenes_text <? 3 then [prompt_text] else scenes_text.


(** ** Exceptions and results *)

(** A raised exception; [exn_str] is what [f"{e}"] prints. *)
Record Exn := mkExn { exn_str : str }.

(** The [AttributeError] of Python for [obj.attr] when [obj] has no
    such attribute. *)
Definition no_attribute (type_name attr : str) : Exn :=
  mkExn (py "'" ++ type_name ++ py "' object has no attribute '" ++ attr
            ++ py "'").

Inductive Result (A : Type) : Type :=
| Ok (a : A)
| Raise (e : Exn).
Arguments Ok {A} a.
Arguments Raise {A} e.

(** ** MoviePy clips

    A clip is the record of attributes MoviePy keeps ([duration], [audio],
    [w]) next to a description of what it shows or plays.  Durations are
    the numbers of the library (floats); the model only needs their zero,
    sum and maximum, kept abstract in [Durations]. *)
Class Durations (D : Type) := {
  dzero : D;
  dadd : D -> D -> D;
  dmax : D -> D -> D;
}.

Section Clips.
Context {D : Type} `{Durations D}.

#[local] Unset Elimination Schemes.

Inductive AudioClip : Type :=
| AudioFile (path : str) (dur : D)             (* AudioFileClip(path) *)
| Volumex (a : AudioClip) (factor : Q)         (* a.volumex(factor) *)
| SetStart (a : AudioClip) (t : D)             (* a.set_start(t) *)
| CompositeAudio (tracks : list AudioClip).    (* CompositeAudioClip(tracks) *)

Inductive Picture : Type :=
| Still (path : str) (width height : N)        (* ImageClip(path) *)
| Caption (txt : str) (fontsize : N) (color bg_color method : str)
          (width : Q)                          (* TextClip(txt, ...) *)
| Positioned (p : Picture) (pos : str * str)   (* .set_position(pos) *)
| Layers (clips : list VideoClip)              (* CompositeVideoClip *)
| Sequence (clips : list VideoClip)            (* concatenate_videoclips *)
with VideoClip : Type :=
| Clip (picture : Picture) (size : N * N) (duration : option D)
       (audio : option AudioClip).

#[local] Set Elimination Schemes.

Definition picture (c : VideoClip) : Picture :=
  match c with Clip p _ _ _ => p end.
Definition size (c : VideoClip) : N * N :=
  match c with Clip _ s _ _ => s end.
Definition duration (c : VideoClip) : option D :=
  match c with Clip _ _ d _ => d end.
Definition audio (c : VideoClip) : option AudioClip :=
  match c with Clip _ _ _ a => a end.

Definition set_duration (c : VideoClip) (d : D) : VideoClip :=
  Clip (picture c) (size c) (Some d) (audio c).
Definition set_position (c : VideoClip) (pos : str * str) : VideoClip :=
  Clip (Positioned (picture c) pos) (size c) (duration c) (audio c).
Definition set_audio (c : VideoClip) (a : AudioClip) : VideoClip :=
  Clip (picture c) (size c) (duration c) (Some a).

Definition max_list (ds : list D) : D :=
  match ds with
  | [] => dzero
  | d :: rest => foldl dmax d rest
  end.

(** [(a.start, a.duration)] of an audio clip; its end is their sum. *)
Fixpoint timing (a : AudioClip) : D * D :=
  match a with
  | AudioFile _ d => (dzero, d)
  | Volumex a' _ => timing a'
  | SetStart a' t => (t, (timing a').2)
  | CompositeAudio tracks =>
      (dzero, max_list (map (fun t => dadd (timing t).1 (timing t).2) tracks))
  end.

(** [a.duration] *)
Definition audio_duration (a : AudioClip) : D := (timing a).2.

(** [max] of the layers' ends, when every layer has one; the layers of
    this program all start at 0. *)
Fixpoint max_end (ds : list (option D)) : option D :=
  match ds with
  | [] => None
  | Some d :: [] => Some d
  | Some d :: rest => match max_end rest with
                      | Some m => Some (dmax d m)
                      | None => None
                      end
  | None :: _ => None
  end.

(** [CompositeVideoClip(clips)]: no audio when no layer has any, as for
    an image under a caption. *)
Definition CompositeVideoClip (clips : list VideoClip) : VideoClip :=
  Clip (Layers clips)
       (match clips with c :: _ => size c | [] => (0, 0)%N end)
       (max_end (duration <$> clips))
       (match omap audio clips with
        | [] => None
        | tracks => Some (CompositeAudio tracks)
        end).

Definition dur_or_zero (c : VideoClip) : D :=
  match duration c with Some d => d | None => dzero end.

(** [np.cumsum([0] + durations)]: the running sums, starting from
    [acc]. *)
Fixpoint cumsum_from (acc : D) (ds : list D) : list D :=
  match ds with
  | [] => [acc]
  | d :: rest => acc :: cumsum_from (dadd acc d) rest
  end.

Definition total (ds : list D) : D := foldl dadd dzero ds.

(** The audio of a concatenation: each clip's audio, started at the
    clip's own start time. *)
Fixpoint audio_at (clips : list VideoClip) (tt : list D) : list AudioClip :=
  match clips, tt with
  | c :: clips', t :: tt' =>
      match audio c with
      | Some a => SetStart a t :: audio_at clips' tt'
      | None => audio_at clips' tt'
      end
  | _, _ => []
  end.

(** [concatenate_videoclips(clips)] for a non-empty list (method
    "chain"); every clip this program concatenates has a duration. *)
Definition concatenated (clips : list VideoClip) : VideoClip :=
  let tt := cumsum_from dzero (dur_or_zero <$> clips) in
  Clip (Sequence clips)
       (foldr N.max 0%N ((fun c => (size c).1) <$> clips),
        foldr N.max 0%N ((fun c => (size c).2) <$> clips))
       (Some (total (dur_or_zero <$> clips)))
       (match audio_at clips tt with
        | [] => None
        | tracks => Some (CompositeAudio tracks)
        end).

Definition volumex (a : AudioClip) (factor : Q) : AudioClip := Volumex a factor.

(** [type(a).__name__]: [volumex] and [set_start] return a copy of the
    clip they are called on. *)
Fixpoint class_name (a : AudioClip) : str :=
  match a with
  | AudioFile _ _ => py "AudioFileClip"
  | Volumex a' _ => class_name a'
  | SetStart a' _ => class_name a'
  | CompositeAudio _ => py "CompositeAudioClip"
  end.
End Clips.
Arguments AudioClip D : clear implicits.
Arguments Picture D : clear implicits.
Arguments VideoClip D : clear implicits.

(** ** The world: files, calls to the outside, widgets *)

Inductive Node : Type :=
| File (data : bytes)
| Dir.

Inductive Call (D : Type) : Type :=
| ChatCompletionsCreate (api_key model : str) (messages : list (str * str))
| ImagesGenerate (api_key model prompt size : str) (n : nat)
| RequestsGet (url : str)
| ElevenlabsGenerate (api_key text voice model : str)
| WriteFile (path : str) (data : bytes)
| OpenAudioFileClip (path : str)
| OpenImageClip (path : str)
| MakeTextClip (txt : str) (fontsize : N) (color bg_color method : str) (width : Q)
| ConcatenateVideoclips (clips : list (VideoClip D))
| MakeCompositeAudioClip (tracks : list (option (AudioClip D)))
| AttributeLoop (clip : AudioClip D)
| WriteVideofile (clip : VideoClip D) (path : str) (fps : N) (codec audio_codec : str)
| ReadVideo (path : str).
Arguments ChatCompletionsCreate {D}.
Arguments ImagesGenerate {D}.
Arguments RequestsGet {D}.
Arguments ElevenlabsGenerate {D}.
Arguments WriteFile {D}.
Arguments OpenAudioFileClip {D}.
Arguments OpenImageClip {D}.
Arguments MakeTextClip {D}.
Arguments ConcatenateVideoclips {D}.
Arguments MakeCompositeAudioClip {D}.
Arguments AttributeLoop {D}.
Arguments WriteVideofile {D}.
Arguments ReadVideo {D}.

Inductive Outcome : Type :=
| Returned
| Raised (e : Exn).

Abbreviation Log D := (list (Call D * Outcome)).

Inductive Widget : Type :=
| StInfo (msg : str)
| StError (msg : str)
| StVideo (data : bytes)
| StSuccess (msg : str).

Record World (D : Type) : Type := mkWorld {
  fs : gmap str Node;
  log : Log D;
  ui : list Widget;
}.
Arguments mkWorld {D}.
Arguments fs {D}.
Arguments log {D}.
Arguments ui {D}.

(** ** The outside

    Every answer may depend on the calls made so far, so that the same
    request can be answered differently twice. *)
Record Backend (D : Type) : Type := {
  (* client.chat.completions.create(...).choices[0].message.content *)
  openai_chat : Log D -> str -> str -> list (str * str) -> Result str;
  (* client.images.generate(...).data[0].url *)
  openai_image : Log D -> str -> str -> str -> str -> nat -> Result str;
  (* requests.get(url).content *)
  http_get : Log D -> str -> Result bytes;
  (* elevenlabs.generate(text=, voice=, model=) *)
  elevenlabs_tts : Log D -> str -> str -> str -> str -> Result bytes;
  (* open(path, "wb") and f.write(data): None when it goes through *)
  disk_write : Log D -> str -> bytes -> option Exn;
  (* the duration ffmpeg reads from an audio file *)
  decode_audio : bytes -> Result D;
  (* the size of a decoded image *)
  decode_image : bytes -> Result (N * N);
  (* the size of the ImageMagick rendering of a caption *)
  render_text : Log D -> str -> Q -> Result (N * N);
  (* the encoder behind write_videofile *)
  encode : Log D -> VideoClip D -> N -> str -> str -> Result bytes;
  (* the files a failed write_videofile leaves behind: MoviePy's temporary
     audio file, a partial output *)
  encode_leaves : Log D -> VideoClip D -> str -> list (str * bytes);
  (* the exceptions of the libraries themselves *)
  no_such_file : str -> Exn;
  nothing_to_concatenate : Exn;
  none_type_error : Exn;
}.
Arguments openai_chat {D}.
Arguments openai_image {D}.
Arguments http_get {D}.
Arguments elevenlabs_tts {D}.
Arguments disk_write {D}.
Arguments decode_audio {D}.
Arguments decode_image {D}.
Arguments render_text {D}.
Arguments encode {D}.
Arguments encode_leaves {D}.
Arguments no_such_file {D}.
Arguments nothing_to_concatenate {D}.
Arguments none_type_error {D}.

(** ** The monad of the program: state and exceptions *)

Definition M (D A : Type) : Type := World D -> Result A * World D.

Definition ret {D A} (a : A) : M D A := fun w => (Ok a, w).

Definition bind {D A B} (m : M D A) (k : A -> M D B) : M D B :=
  fun w => match m w with
           | (Ok a, w') => k a w'
           | (Raise e, w') => (Raise e, w')
           end.

Notation "'let!' x ':=' m 'in' k" := (bind m (fun x => k))
  (at level 10, x name, m at level 100, k at level 200).

(** [try: body except Exception as e: handler(e)] *)
Definition try_except {D A} (body : M D A) (handler : Exn -> M D A) : M D A :=
  fun w => match body w with
           | (Ok a, w') => (Ok a, w')
           | (Raise e, w') => handler e w'
           end.

Definition logged {D} (c : Call D) (o : Outcome) (w : World D) : World D :=
  mkWorld (fs w) (log w ++ [(c, o)]) (ui w).

(** A call to the outside: its answer is computed from the log and the
    files as they are, and the call is logged with its outcome. *)
Definition external {D A} (c : Call D) (answer : World D -> Result A) : M D A :=
  fun w => match answer w with
           | Ok a => (Ok a, logged c Returned w)
           | Raise e => (Raise e, logged c (Raised e) w)
           end.

Definition put_file {D} (path : str) (data : bytes) : M D unit :=
  fun w => (Ok tt, mkWorld (<[path := File data]> (fs w)) (log w) (ui w)).

Definition show {D} (x : Widget) : M D unit :=
  fun w => (Ok tt, mkWorld (fs w) (log w) (ui w ++ [x])).

Definition of_option (o : option Exn) : Result unit :=
  match o with None => Ok tt | Some e => Raise e end.

(** ** The program *)

(** The three values read from [st.secrets] at startup, once they are
    known to be there; [client] and ElevenLabs' [set_api_key] keep the
    two keys. *)
Record Config : Type := {
  openai_api_key : str;
  elevenlabs_api_key : str;
  voice_id : str;
}.

(** What one run of the script receives from the page and the system. *)
Record Inputs : Type := {
  button : bool;                  (* st.button("Generate Video") *)
  text_input : str;               (* st.text_area(...) *)
  music_upload : option bytes;    (* st.file_uploader(...) *)
  temp_dir : str;                 (* the name tempfile chooses *)
}.

Inductive Status : Type :=
| Stopped      (* st.stop() *)
| Finished.

Fixpoint zip3 {A B C} (la : list A) (lb : list B) (lc : list C)
  : list (A * B * C) :=
  match la, lb, lc with
  | a :: la', b :: lb', c :: lc' => (a, b, c) :: zip3 la' lb' lc'
  | _, _, _ => []
  end.

Definition all_some {A} (l : list (option A)) : option (list A) :=
  if bool_decide (length (omap id l) = length l) then Some (omap id l) else None.

(** The files with what a failed call left behind put where it was
    left. *)
Definition leave (debris : list (str * bytes)) (files : gmap str Node)
  : gmap str Node :=
  foldr (fun entry m => <[entry.1 := File entry.2]> m) files debris.

Section Program.
Context {D : Type} `{Durations D} (be : Backend D).

Definition lift {A B} (f : A -> B) (r : Result A) : Result B :=
  match r with Ok a => Ok (f a) | Raise e => Raise e end.

(** *** Library calls *)

Definition chat_completions_create (api_key model : str)
    (messages : list (str * str)) : M D str :=
  external (ChatCompletionsCreate api_key model messages)
           (fun w => openai_chat be (log w) api_key model messages).

Definition images_generate (api_key model prompt size : str) (n : nat)
  : M D str :=
  external (ImagesGenerate api_key model prompt size n)
           (fun w => openai_image be (log w) api_key model prompt size n).

Definition requests_get (url : str) : M D bytes :=
  external (RequestsGet url) (fun w => http_get be (log w) url).

Definition generate (api_key text voice model : str) : M D bytes :=
  external (ElevenlabsGenerate api_key text voice model)
           (fun w => elevenlabs_tts be (log w) api_key text voice model).

(** [with open(path, "wb") as f: f.write(data)] *)
Definition write_file (path : str) (data : bytes) : M D unit :=
  let! _ := external (WriteFile path data)
                     (fun w => of_option (disk_write be (log w) path data)) in
  put_file path data.

(** [os.path.exists(path)] *)
Definition path_exists (path : str) : M D bool :=
  fun w => (Ok (bool_decide (is_Some (fs w !! path))), w).

Definition read_file (w : World D) (path : str) : Result bytes :=
  match fs w !! path with
  | Some (File data) => Ok data
  | _ => Raise (no_such_file be path)
  end.

Definition AudioFileClip (path : str) : M D (AudioClip D) :=
  external (OpenAudioFileClip path)
    (fun w => match read_file w path with
              | Ok data => lift (AudioFile path) (decode_audio be data)
              | Raise e => Raise e
              end).

Definition ImageClip (path : str) : M D (VideoClip D) :=
  external (OpenImageClip path)
    (fun w => match read_file w path with
              | Ok data =>
                  lift (fun wh => Clip (Still path wh.1 wh.2) wh None None)
                       (decode_image be data)
              | Raise e => Raise e
              end).

Definition TextClip (txt : str) (fontsize : N) (color bg_color method : str)
    (width : Q) : M D (VideoClip D) :=
  external (MakeTextClip txt fontsize color bg_color method width)
    (fun w => lift (fun wh => Clip (Caption txt fontsize color bg_color
                                            method width) wh None None)
                   (render_text be (log w) txt width)).

Definition concatenate_videoclips (clips : list (VideoClip D))
  : M D (VideoClip D) :=
  external (ConcatenateVideoclips clips)
    (fun _ => match clips with
              | [] => Raise (nothing_to_concatenate be)
              | _ => Ok (concatenated clips)
              end).

Definition CompositeAudioClip (tracks : list (option (AudioClip D)))
  : M D (AudioClip D) :=
  external (MakeCompositeAudioClip tracks)
    (fun _ => match all_some tracks with
              | Some l => Ok (CompositeAudio l)
              | None => Raise (none_type_error be)
              end).

(** [a.loop]: under [moviepy.editor] (line 6) an audio clip has
    [audio_loop], [volumex] and the fades, and no [loop]; the attribute
    lookup raises before any argument is looked at. *)
Definition attribute_loop (a : AudioClip D) (dur : option D)
  : M D (AudioClip D) :=
  external (AttributeLoop a)
           (fun _ => Raise (no_attribute (class_name a) (py "loop"))).

(** [clip.write_videofile(path, fps=, codec=, audio_codec=)]: when the
    encoding goes through, the video is at [path] (the temporary audio
    file MoviePy writes on the way is removed again); when it raises,
    what it had written so far stays. *)
Definition write_videofile (clip : VideoClip D) (path : str) (fps : N)
    (codec audio_codec : str) : M D unit :=
  fun w =>
    match encode be (log w) clip fps codec audio_codec with
    | Ok data =>
        (Ok tt,
         mkWorld (<[path := File data]> (fs w))
                 (log w ++ [(WriteVideofile clip path fps codec audio_codec,
                             Returned)])
                 (ui w))
    | Raise e =>
        (Raise e,
         mkWorld (leave (encode_leaves be (log w) clip path) (fs w))
                 (log w ++ [(WriteVideofile clip path fps codec audio_codec,
                             Raised e)])
                 (ui w))
    end.

(** [st.video(path)]: the file is read when the widget is made. *)
Definition st_video (path : str) : M D unit :=
  let! data := external (ReadVideo path) (fun w => read_file w path) in
  show (StVideo data).

(** *** [generate_scene_images_and_audio] (lines 26-70) *)

Section Stages.
Variable cfg : Config.

(** The [messages] of lines 30-33, as (role, content) pairs. *)
Definition scene_messages (prompt_text : str) : list (str * str) :=
  [(py "system",
    py "Break the following text into 3 short scenes for a video.");
   (py "user", prompt_text)].

(** Lines 28-37: the Scene Segmenter. *)
Definition segment_scenes (prompt_text : str) : M D (list str) :=
  let! content :=
    chat_completions_create (openai_api_key cfg) (py "gpt-4o-mini")
      (scene_messages prompt_text) in
  ret (scenes_of_content prompt_text content).

Definition scene_png (i : nat) : str :=
  py "scene_" ++ str_of_nat i ++ py ".png".
Definition scene_mp3 (i : nat) : str :=
  py "scene_" ++ str_of_nat i ++ py ".mp3".

(** Lines 43-69: the body of the loop over [enumerate(scenes_text)],
    from index [i] on, appending to the three lists. *)
Fixpoint assets_from (temp_dir : str) (i : nat) (scenes_text : list str)
    (acc : list str * list str * list str)
  : M D (list str * list str * list str) :=
  match scenes_text with
  | [] => ret acc
  | scene_text :: rest =>
      let '(image_files, audio_files, subtitles) := acc in
      let! img_url := images_generate (openai_api_key cfg) (py "dall-e-3")
                        scene_text (py "512x512") 1 in
      let! img_data := requests_get img_url in
      let img_path := path_join temp_dir (scene_png i) in
      let! _ := write_file img_path img_data in
      let image_files := image_files ++ [img_path] in
      let! audio_data := generate (elevenlabs_api_key cfg) scene_text
                           (voice_id cfg) (py "eleven_multilingual_v1") in
      let audio_path := path_join temp_dir (scene_mp3 i) in
      let! _ := write_file audio_path audio_data in
      let audio_files := audio_files ++ [audio_path] in
      let subtitles := subtitles ++ [scene_text] in
      assets_from temp_dir (S i) rest (image_files, audio_files, subtitles)
  end.

(** Lines 39-70: the Asset Generator. *)
Definition generate_assets (scenes_text : list str) (temp_dir : str)
  : M D (list str * list str * list str) :=
  assets_from temp_dir 0 scenes_text ([], [], []).

Definition generate_scene_images_and_audio (prompt_text temp_dir : str)
  : M D (list str * list str * list str) :=
  let! scenes_text := segment_scenes prompt_text in
  generate_assets scenes_text temp_dir.
End Stages.

(** *** [create_video] (lines 72-95) *)

(** Lines 74-84: the loop over [zip(image_files, audio_files,
    subtitles)], appending to [clips]. *)
Fixpoint clips_from (scenes : list (str * str * str))
    (clips : list (VideoClip D)) : M D (list (VideoClip D)) :=
  match scenes with
  | [] => ret clips
  | (img, audio, subtitle) :: rest =>
      let! audio_clip := AudioFileClip audio in
      let! img_clip0 := ImageClip img in
      let img_clip := set_duration img_clip0 (audio_duration audio_clip) in
      let! subtitle_clip0 :=
        TextClip subtitle 24 (py "white") (py "black") (py "caption")
                 (inject_Z (Z.of_N (size img_clip).1) * (9 # 10))%Q in
      let subtitle_clip :=
        set_duration (set_position subtitle_clip0 (py "center", py "bottom"))
                     (audio_duration audio_clip) in
      let video_clip := CompositeVideoClip [img_clip; subtitle_clip] in
      let video_clip := set_audio video_clip audio_clip in
      clips_from rest (clips ++ [video_clip])
  end.

(** Lines 89-92: the background music, when there is any. *)
Definition add_music (final_clip : VideoClip D) (music_path : option str)
  : M D (VideoClip D) :=
  let! has_music :=
    match music_path with
    | Some p => if truthy p then path_exists p else ret false
    | None => ret false
    end in
  match has_music, music_path with
  | true, Some p =>
      let! music0 := AudioFileClip p in
      let! music_clip :=
        attribute_loop (volumex music0 (1 # 10)) (duration final_clip) in
      let! final_audio :=
        CompositeAudioClip [audio final_clip; Some music_clip] in
      ret (set_audio final_clip final_audio)
  | _, _ => ret final_clip
  end.

(** Lines 73-92: the clip that is handed to the encoder. *)
Definition assemble (image_files audio_files subtitles : list str)
    (music_path : option str) : M D (VideoClip D) :=
  let! clips := clips_from (zip3 image_files audio_files subtitles) [] in
  let! final_clip := concatenate_videoclips clips in
  add_music final_clip music_path.

Definition create_video (image_files audio_files subtitles : list str)
    (output_path : str) (music_path : option str) : M D unit :=
  let! final_clip := assemble image_files audio_files subtitles music_path in
  let! _ := write_videofile final_clip output_path 24 (py "libx264")
                            (py "aac") in
  ret tt.   (* final_clip.close() *)

(** *** The Streamlit script (lines 13-22 and 98-125) *)

Definition is_under (dir p : str) : Prop :=
  p = dir \/ (dir ++ [SLASH]) `prefix_of` p.

#[local] Instance is_under_dec dir p : Decision (is_under dir p).
Proof. unfold is_under. apply _. Defined.

(** [with tempfile.TemporaryDirectory() as temp_dir: body]: the
    directory is made, and removed with all it holds when the block is
    left, however it is left. *)
Definition with_temporary_directory {A} (dir : str) (body : M D A) : M D A :=
  fun w =>
    let '(r, w') := body (mkWorld (<[dir := Dir]> (fs w)) (log w) (ui w)) in
    (r, mkWorld (filter (fun kv => ~ is_under dir kv.1) (fs w')) (log w')
                (ui w')).

(** Lines 110-114: [music_path], after the upload is saved. *)
Definition save_music (inp : Inputs) : M D (option str) :=
  match music_upload inp with
  | Some data =>
      let music_path := path_join (temp_dir inp) (py "background_music.mp3") in
      let! _ := write_file music_path data in
      ret (Some music_path)
  | None => ret None
  end.

(** Lines 108-122: the body of [try]. *)
Definition pipeline (cfg : Config) (inp : Inputs) : M D unit :=
  let! assets :=
    generate_scene_images_and_audio cfg (text_input inp) (temp_dir inp) in
  let '(image_files, audio_files, subtitles) := assets in
  let! music_path := save_music inp in
  let output_video_path := path_join (temp_dir inp) (py "output_video.mp4") in
  let! _ := show (StInfo (py "Creating video...")) in
  let! _ := create_video image_files audio_files subtitles output_video_path
                         music_path in
  let! _ := st_video output_video_path in
  show (StSuccess (py "Video generated successfully!")).

(** Lines 105-125: what the button triggers. *)
Definition run (cfg : Config) (inp : Inputs) : M D unit :=
  with_temporary_directory (temp_dir inp)
    (let! _ := show (StInfo (py "Generating scenes, images, and audio...")) in
     try_except (pipeline cfg inp)
                (fun e => show (StError (py "Error: " ++ exn_str e)))).

(** [not x] for what [st.secrets.get] returns: [None] and the empty
    string are falsy. *)
Definition not_ (x : option str) : bool :=
  match x with
  | Some s => negb (truthy s)
  | None => true
  end.

Definition MISSING_SECRETS : str :=
  py "Please add OPENAI_API_KEY, ELEVENLABS_API_KEY, and VOICE_ID to your Streamlit secrets.".

(** The whole script, run once. *)
Definition script (secrets : gmap str str) (inp : Inputs) : M D Status :=
  let openai_api_key := secrets !! py "OPENAI_API_KEY" in
  let elevenlabs_api_key := secrets !! py "ELEVENLABS_API_KEY" in
  let voice_id := secrets !! py "VOICE_ID" in
  if not_ openai_api_key || not_ elevenlabs_api_key || not_ voice_id then
    let! _ := show (StError MISSING_SECRETS) in
    ret Stopped
  else
    (* none of the three is None here *)
    let cfg := {| openai_api_key := default [] openai_api_key;
                  elevenlabs_api_key := default [] elevenlabs_api_key;
                  voice_id := default [] voice_id |} in
    if button inp && truthy (strip (text_input inp)) then
      let! _ := run cfg inp in
      ret Finished
    else ret Finished.
End Program.

(** ** A concrete outside, to run the model on

    Durations are whole milliseconds; every service answers, except that the
    answer of the completion service and of the speech service are given. *)

#[global] Instance N_durations : Durations N :=
  {| dzero := 0%N; dadd := N.add; dmax := N.max |}.

Definition demo_backend (chat : Result str) (tts : Result bytes) : Backend N :=
  {| openai_chat := fun _ _ _ _ => chat;
     openai_image := fun _ _ _ prompt _ _ => Ok (py "https://img/" ++ prompt);
     http_get := fun _ _ => Ok [Byte.x89; Byte.x50];
     elevenlabs_tts := fun _ _ _ _ _ => tts;
     disk_write := fun _ _ _ => None;
     decode_audio := fun data => Ok (1000 * N.of_nat (length data))%N;
     decode_image := fun _ => Ok (512, 512)%N;
     render_text := fun _ _ _ => Ok (460, 40)%N;
     encode := fun _ _ _ _ _ => Ok [Byte.x00];
     encode_leaves := fun _ _ _ => [];
     no_such_file := fun p => mkExn (py "No such file: " ++ p);
     nothing_to_concatenate := mkExn (py "max() arg is an empty sequence");
     none_type_error := mkExn (py "NoneType") |}.

Definition demo_config : Config :=
  {| openai_api_key := py "sk-demo";
     elevenlabs_api_key := py "el-demo";
     voice_id := py "voice-1" |}.

Definition empty_world : World N := mkWorld ∅ [] [].

Definition demo_inputs (music : option bytes) : Inputs :=
  {| button := true;
     text_input := py "A dog. A key.";
     music_upload := music;
     temp_dir := py "/tmp/t" |}.


(** A world with the files of two scenes and a music file in it. *)
Definition studio : World N :=
  mkWorld (list_to_map
             [(py "/t/scene_0.png", File [Byte.x89]);
              (py "/t/scene_0.mp3", File [Byte.x01; Byte.x02]);
              (py "/t/scene_1.png", File [Byte.x89]);
              (py "/t/scene_1.mp3", File [Byte.x01; Byte.x02; Byte.x03]);
              (py "/t/music.mp3", File [Byte.x07])])
          [] [].

Definition studio_images : list str := [py "/t/scene_0.png"; py "/t/scene_1.png"].
Definition studio_audio : list str := [py "/t/scene_0.mp3"; py "/t/scene_1.mp3"].
Definition studio_subtitles : list str := [py "A dog."; py "A key."].

Definition demo_secrets : gmap str str :=
  list_to_map [(py "OPENAI_API_KEY", py "sk-demo");
               (py "ELEVENLABS_API_KEY", py "el-demo");
               (py "VOICE_ID", py "voice-1")].
(** The lines of a completion that are not empty. *)
Definition nonempty_lines (content : str) : list str :=
  filter (fun l => l <> []) (split NL content).

(** A completion whose two scenes are separated by a blank line, and the
    story it answers. *)
Definition story : str := py "A dog. A key.".
Definition blank_line_content : str := py "A dog." ++ [NL; NL] ++ py "A key.".

(** The two requests the generator makes for a scene. *)
Definition image_call {D} (cfg : Config) (scene_text : str) : Call D :=
  ImagesGenerate (openai_api_key cfg) (py "dall-e-3") scene_text
                 (py "512x512") 1.

Definition speech_call {D} (cfg : Config) (scene_text : str) : Call D :=
  ElevenlabsGenerate (elevenlabs_api_key cfg) scene_text (voice_id cfg)
                     (py "eleven_multilingual_v1").

(** What the assembler reads from the files of a scene: the duration of
    its audio, the size of its image. *)
Definition audio_length {D} (be : Backend D) (w : World D) (path : str)
  : option D :=
  match fs w !! path with
  | Some (File data) =>
      match decode_audio be data with Ok d => Some d | Raise _ => None end
  | _ => None
  end.

Definition image_size {D} (be : Backend D) (w : World D) (path : str)
  : option (N * N) :=
  match fs w !! path with
  | Some (File data) =>
      match decode_image be data with Ok wh => Some wh | Raise _ => None end
  | _ => None
  end.

(** The sub-clip of a scene whose audio lasts [d]: the image for [d] under
    the caption for [d], with the scene's audio. *)
Definition scene_clip {D} `{Durations D} (scene : str * str * str) (d : D)
    (image_wh text_wh : N * N) : VideoClip D :=
  let '(img, aud, subtitle) := scene in
  Clip (Layers
          [Clip (Still img image_wh.1 image_wh.2) image_wh (Some d) None;
           Clip (Positioned
                   (Caption subtitle 24 (py "white") (py "black") (py "caption")
                            (inject_Z (Z.of_N image_wh.1) * (9 # 10))%Q)
                   (py "center", py "bottom"))
                text_wh (Some d) None])
       image_wh (Some (dmax d d)) (Some (AudioFile aud d)).

(** A scene's files as the assembler finds them in [w]: the duration of
    the audio and the size of the image are the first two of [params], the
    size of the rendered caption the third. *)
Definition built_from {D} (be : Backend D) (w : World D)
    (scene : str * str * str) (params : D * ((N * N) * (N * N))) : Prop :=
  audio_length be w scene.1.2 = Some params.1
  /\ image_size be w scene.1.1 = Some params.2.1.

Definition clip_of {D} `{Durations D} (scene : str * str * str)
    (params : D * ((N * N) * (N * N))) : VideoClip D :=
  scene_clip scene params.1 params.2.1 params.2.2.

(** What the assembler needs to go through: the files of every scene can
    be decoded, the caption renderer and the encoder answer, and there is
    no music file. *)
Definition scene_files_ok {D} (be : Backend D) (w : World D)
    (scene : str * str * str) : Prop :=
  is_Some (audio_length be w scene.1.2) /\ is_Some (image_size be w scene.1.1).

Definition tools_answer {D} (be : Backend D) : Prop :=
  (forall calls txt width, exists wh, render_text be calls txt width = Ok wh)
  /\ (forall calls clip fps codec audio_codec,
        exists data, encode be calls clip fps codec audio_codec = Ok data).

(** No music: no path, the empty path, or a path with no file at it. *)
Definition no_music_file {D} (w : World D) (music_path : option str) : Prop :=
  match music_path with
  | Some p => p = [] \/ fs w !! p = None
  | None => True
  end.

(** The narration of a video: the audio of each scene, one after the
    other, each starting where the one before ends. *)
Definition narration {D} `{Durations D} (tracks : list (str * D))
  : AudioClip D :=
  CompositeAudio
    (zip_with (fun track t => SetStart (AudioFile track.1 track.2) t)
              tracks (cumsum_from dzero (snd <$> tracks))).

Definition all_returned {D} (calls : Log D) : Prop :=
  Forall (fun entry => entry.2 = Returned) calls.

Definition is_info (x : Widget) : Prop :=
  match x with StInfo _ => True | _ => False end.

(** A computation whose calls are traced: when it returns, every call it
    made returned; when it raises [e], [e] was raised by the last call it
    made and every call before returned.  So no exception is caught on the
    way, and nothing is called after one. *)
Definition traced {D A} (m : M D A) : Prop :=
  forall w,
    match m w with
    | (Ok _, w') => exists calls, log w' = log w ++ calls /\ all_returned calls
    | (Raise e, w') =>
        exists calls c,
          log w' = log w ++ calls ++ [(c, Raised e)] /\ all_returned calls
    end.

(** A computation that shows nothing to the user. *)
Definition quiet {D A} (m : M D A) : Prop :=
  forall w r w', m w = (r, w') -> ui w' = ui w.

(** A call that carries credentials carries those of [cfg]. *)
Definition uses_config {D} (cfg : Config) (entry : Call D * Outcome) : Prop :=
  match entry.1 with
  | ChatCompletionsCreate api_key _ _ => api_key = openai_api_key cfg
  | ImagesGenerate api_key _ _ _ _ => api_key = openai_api_key cfg
  | ElevenlabsGenerate api_key _ voice _ =>
      api_key = elevenlabs_api_key cfg /\ voice = voice_id cfg
  | _ => True
  end.

(** A computation all of whose calls satisfy [P]. *)
Definition appends {D A} (P : Call D * Outcome -> Prop) (m : M D A) : Prop :=
  forall w, exists calls, log (m w).2 = log w ++ calls /\ Forall P calls.

(** ** Vocabulary of the further properties *)

(** [sep.join(pieces)] *)
Fixpoint join (sep : str) (pieces : list str) : str :=
  match pieces with
  | [] => []
  | [piece] => piece
  | piece :: rest => piece ++ sep ++ join sep rest
  end.

(** A string [str.strip()] empties: nothing but whitespace. *)
Definition blank (s : str) : Prop := Forall (fun c => isspace c = true) s.

(** A directory name as [tempfile] gives it: not empty, no slash at the
    end. *)
Definition plain_dir (dir : str) : Prop :=
  exists c, last dir = Some c /\ c <> SLASH.

(** The prompts of the image requests and the texts of the speech
    requests of a log, in the order they were made. *)
Definition image_prompts {D} (calls : Log D) : list str :=
  omap (fun entry => match entry.1 with
                     | ImagesGenerate _ _ prompt _ _ => Some prompt
                     | _ => None
                     end) calls.

Definition speech_texts {D} (calls : Log D) : list str :=
  omap (fun entry => match entry.1 with
                     | ElevenlabsGenerate _ text _ _ => Some text
                     | _ => None
                     end) calls.

(** A computation that changes no file whose path is outside [P]. *)
Definition frames {D A} (P : str -> Prop) (m : M D A) : Prop :=
  forall w r w', m w = (r, w') ->
    forall p, ~ P p -> fs w' !! p = fs w !! p.

(** The image and the caption a sub-clip of [create_video] shows. *)
Definition still_of {D} (c : VideoClip D) : option str :=
  match picture c with
  | Layers (Clip (Still path _ _) _ _ _ :: _) => Some path
  | _ => None
  end.

Definition caption_of {D} (c : VideoClip D) : option str :=
  match picture c with
  | Layers [_; Clip (Positioned (Caption txt _ _ _ _ _) _) _ _ _] => Some txt
  | _ => None
  end.

Definition sub_clips {D} (c : VideoClip D) : list (VideoClip D) :=
  match picture c with
  | Sequence clips => clips
  | _ => []
  end.

(** The paths the generator writes for the scenes [i], ..., [i + n - 1]. *)
Definition scene_paths (dir : str) (i n : nat) : list str :=
  ((fun k => path_join dir (scene_png k)) <$> seq i n)
  ++ ((fun k => path_join dir (scene_mp3 k)) <$> seq i n).

(** A call that writes a file writes it under [dir]. *)
Definition writes_under {D} (dir : str) (entry : Call D * Outcome) : Prop :=
  match entry.1 with
  | WriteFile path _ => is_under dir path
  | WriteVideofile _ path _ _ _ => is_under dir path
  | _ => True
  end.

(** * Properties *)

Example split_ex :
  split NL (py "a" ++ [NL; NL] ++ py "b") = [py "a"; py ""; py "b"].
Proof. reflexivity. Qed.

Example strip_ex : strip (py "  a b" ++ [NL] ++ py " ") = py "a b".
Proof. reflexivity. Qed.

Example str_of_nat_ex : str_of_nat 12 = py "12" /\ str_of_nat 0 = py "0".
Proof. split; reflexivity. Qed.

Example path_join_ex :
  path_join (py "/tmp/x") (py "scene_0.png") = py "/tmp/x/scene_0.png"
  /\ path_join (py "/tmp/x/") (py "scene_0.png") = py "/tmp/x/scene_0.png".
Proof. split; reflexivity. Qed.

Example scene_names_ex :
  scene_png 2 = py "scene_2.png" /\ scene_mp3 10 = py "scene_10.mp3".
Proof. split; reflexivity. Qed.

(** ** Strings *)

Lemma split_length_pos sep s : 1 <= length (split sep s).
Proof.
  induction s as [|c t IH]; simpl; [lia|].
  destruct (c =? sep)%N; simpl; [lia|].
  destruct (split sep t); simpl; lia.
Qed.


Lemma scenes_of_content_few prompt_text content :
  length (split NL (strip content)) < 3 ->
  scenes_of_content prompt_text content = [prompt_text].
Proof.
  intros Hlt. unfold scenes_of_content.
  destruct (Nat.ltb_spec (length (split NL (strip content))) 3); [done|lia].
Qed.

Lemma scenes_of_content_many prompt_text content :
  3 <= length (split NL (strip content)) ->
  scenes_of_content prompt_text content = split NL (strip content).
Proof.
  intros Hge. unfold scenes_of_content.
  destruct (Nat.ltb_spec (length (split NL (strip content))) 3); [lia|done].
Qed.

(** ** Stepping through the monad *)

Section Stepping.
Context {D : Type}.

Lemma bind_ok {A B} (m : M D A) (k : A -> M D B) w b w' :
  bind m k w = (Ok b, w') ->
  exists a w1, m w = (Ok a, w1) /\ k a w1 = (Ok b, w').
Proof.
  unfold bind. destruct (m w) as [[a|e] w1]; [eauto|discriminate].
Qed.

Lemma bind_raise {A B} (m : M D A) (k : A -> M D B) w e w' :
  bind m k w = (Raise e, w') ->
  m w = (Raise e, w') \/ exists a w1, m w = (Ok a, w1) /\ k a w1 = (Raise e, w').
Proof.
  unfold bind. destruct (m w) as [[a|e1] w1]; [eauto|].
  intros [= -> ->]. by left.
Qed.

Lemma bind_step {A B} (m : M D A) (k : A -> M D B) w a w1 :
  m w = (Ok a, w1) -> bind m k w = k a w1.
Proof. unfold bind. by intros ->. Qed.

Lemma bind_abort {A B} (m : M D A) (k : A -> M D B) w e w1 :
  m w = (Raise e, w1) -> bind m k w = (Raise e, w1).
Proof. unfold bind. by intros ->. Qed.

Lemma external_ok {A} (c : Call D) (f : World D -> Result A) w a w' :
  external c f w = (Ok a, w') -> f w = Ok a /\ w' = logged c Returned w.
Proof. unfold external. destruct (f w); by intros [= <- <-]. Qed.

Lemma external_raise {A} (c : Call D) (f : World D -> Result A) w e w' :
  external c f w = (Raise e, w') -> f w = Raise e /\ w' = logged c (Raised e) w.
Proof. unfold external. destruct (f w); by intros [= <- <-]. Qed.

Lemma external_step {A} (c : Call D) (f : World D -> Result A) w a :
  f w = Ok a -> external c f w = (Ok a, logged c Returned w).
Proof. unfold external. by intros ->. Qed.
End Stepping.

(** ** The Scene Segmenter *)

Section Segmenter.
Context {D : Type} `{Durations D} (be : Backend D).

Lemma segment_scenes_run cfg prompt_text content (w : World D) :
  openai_chat be (log w) (openai_api_key cfg) (py "gpt-4o-mini")
              (scene_messages prompt_text) = Ok content ->
  segment_scenes be cfg prompt_text w
  = (Ok (scenes_of_content prompt_text content),
     logged (ChatCompletionsCreate (openai_api_key cfg) (py "gpt-4o-mini")
                                   (scene_messages prompt_text))
            Returned w).
Proof.
  intros Hchat. unfold segment_scenes, chat_completions_create.
  erewrite bind_step; [reflexivity|]. by apply external_step.
Qed.

(** C1 (as amended): when the stripped completion, split at every
    newline, has fewer than 3 lines, blank ones counted, the segmenter
    returns the story itself as the only caption, and does not raise. *)
Theorem segment_fallback_to_one cfg prompt_text content (w : World D) :
  openai_chat be (log w) (openai_api_key cfg) (py "gpt-4o-mini")
              (scene_messages prompt_text) = Ok content ->
  length (split NL (strip content)) < 3 ->
  segment_scenes be cfg prompt_text w
  = (Ok [prompt_text],
     logged (ChatCompletionsCreate (openai_api_key cfg) (py "gpt-4o-mini")
                                   (scene_messages prompt_text))
            Returned w).
Proof.
  intros Hchat Hfew. rewrite (segment_scenes_run _ _ content) by done.
  by rewrite scenes_of_content_few.
Qed.

End Segmenter.

Lemma segment_fallback_to_one_witness :
  segment_scenes (demo_backend (Ok (py "A dog finds a key.")) (Ok []))
                 demo_config story empty_world
  = (Ok [story],
     logged (ChatCompletionsCreate (py "sk-demo") (py "gpt-4o-mini")
                                   (scene_messages story))
            Returned empty_world).
Proof.
  apply (segment_fallback_to_one
           (demo_backend (Ok (py "A dog finds a key.")) (Ok []))
           demo_config story (py "A dog finds a key.") empty_world).
  - reflexivity.
  - vm_compute. lia.
Defined.


(** C1 as it is stated fails: this completion has two non-empty lines,
    fewer than 3, and the segmenter returns three captions, the middle one
    empty, instead of the story. *)
Lemma segment_blank_line_counterexample :
  length (nonempty_lines blank_line_content) < 3
  /\ length (nonempty_lines (strip blank_line_content)) < 3
  /\ (segment_scenes (demo_backend (Ok blank_line_content) (Ok []))
                     demo_config story empty_world).1
     = Ok [py "A dog."; []; py "A key."]
  /\ (segment_scenes (demo_backend (Ok blank_line_content) (Ok []))
                     demo_config story empty_world).1
     <> Ok [story].
Proof.
  split; [vm_compute; lia|]. split; [vm_compute; lia|].
  split; [reflexivity|]. vm_compute. discriminate.
Qed.

(** ** The Asset Generator *)

Ltac step_ok H :=
  let a := fresh "a" in
  let w1 := fresh "w" in
  let Hm := fresh "Hcall" in
  apply bind_ok in H as (a & w1 & Hm & H).

Ltac ext_ok H :=
  unfold chat_completions_create, images_generate, requests_get, generate,
    AudioFileClip, ImageClip, TextClip, concatenate_videoclips,
    CompositeAudioClip, attribute_loop in H;
  apply external_ok in H.

Section AssetGenerator.
Context {D : Type} `{Durations D} (be : Backend D) (cfg : Config).

Lemma write_file_ok path data (w : World D) u w' :
  write_file be path data w = (Ok u, w') ->
  disk_write be (log w) path data = None
  /\ w' = mkWorld (<[path := File data]> (fs w))
                  (log w ++ [(WriteFile path data, Returned)]) (ui w).
Proof.
  unfold write_file. intros Hrun. step_ok Hrun.
  apply external_ok in Hcall as [Hans ->].
  unfold put_file in Hrun. injection Hrun as <- <-.
  split; [|done]. unfold of_option in Hans. by destruct (disk_write _ _ _ _).
Qed.

(** One successful round of the loop leaves the three lists one longer
    and the two requests of the scene in the log. *)
Lemma assets_from_ok scenes_text :
  forall dir i image_files audio_files subtitles (w : World D) r w',
    assets_from be cfg dir i scenes_text
                (image_files, audio_files, subtitles) w = (Ok r, w') ->
    r = (image_files
           ++ ((fun k => path_join dir (scene_png k))
                 <$> seq i (length scenes_text)),
         audio_files
           ++ ((fun k => path_join dir (scene_mp3 k))
                 <$> seq i (length scenes_text)),
         subtitles ++ scenes_text)
    /\ log w `prefix_of` log w'
    /\ forall s, s ∈ scenes_text ->
         (image_call cfg s, Returned) ∈ log w'
         /\ (speech_call cfg s, Returned) ∈ log w'.
Proof.
  induction scenes_text as [|scene_text rest IH];
    intros dir i image_files audio_files subtitles w r w' Hrun.
  - simpl in Hrun. injection Hrun as <- <-.
    rewrite !app_nil_r. split; [done|]. split; [done|].
    intros s Hs. by apply elem_of_nil in Hs.
  - simpl in Hrun.
    step_ok Hrun. ext_ok Hcall. destruct Hcall as [_ ->].
    step_ok Hrun. ext_ok Hcall. destruct Hcall as [_ ->].
    step_ok Hrun. apply write_file_ok in Hcall as [_ ->].
    step_ok Hrun. ext_ok Hcall. destruct Hcall as [_ ->].
    step_ok Hrun. apply write_file_ok in Hcall as [_ ->].
    apply IH in Hrun as (-> & Hpre & Hin). simpl in Hpre.
    split; [|split].
    + simpl. by rewrite <- !app_assoc.
    + etrans; [|exact Hpre]. rewrite <- !app_assoc. by apply prefix_app_r.
    + intros s [->|Hs]%elem_of_cons; [|by apply Hin].
      split; (eapply elem_of_prefix; [|exact Hpre]);
        unfold image_call, speech_call;
        rewrite !elem_of_app, !list_elem_of_singleton; tauto.
Qed.

(** C2: when the generator goes through a sequence of N captions
    without an error, it returns N image paths, N audio paths and the
    captions themselves; the i-th image path is [scene_{i}.png] and the
    i-th audio path [scene_{i}.mp3], joined to the scratch directory. *)
Theorem generate_assets_aligned scenes_text dir (w : World D)
    image_files audio_files subtitles w' :
  generate_assets be cfg scenes_text dir w
  = (Ok (image_files, audio_files, subtitles), w') ->
  length image_files = length scenes_text
  /\ length audio_files = length scenes_text
  /\ subtitles = scenes_text
  /\ forall i, i < length scenes_text ->
       image_files !! i
       = Some (path_join dir (py "scene_" ++ str_of_nat i ++ py ".png"))
       /\ audio_files !! i
          = Some (path_join dir (py "scene_" ++ str_of_nat i ++ py ".mp3")).
Proof.
  unfold generate_assets. intros Hrun.
  apply assets_from_ok in Hrun as (Hr & _ & _).
  injection Hr as -> -> ->. simpl.
  rewrite !length_fmap, !length_seq. repeat split; try done.
  all: rewrite list_lookup_fmap, lookup_seq_lt by done; reflexivity.
Qed.

(** C10: a completion of at least 3 lines with a blank one among them
    gives an empty caption, and a run of the generator that goes through
    has asked for an image with the empty prompt and for speech of the
    empty text. *)
Theorem blank_line_gives_empty_scene prompt_text dir (w : World D)
    image_files audio_files subtitles w' :
  openai_chat be (log w) (openai_api_key cfg) (py "gpt-4o-mini")
              (scene_messages prompt_text) = Ok blank_line_content ->
  generate_scene_images_and_audio be cfg prompt_text dir w
  = (Ok (image_files, audio_files, subtitles), w') ->
  3 <= length (split NL blank_line_content)
  /\ [] ∈ split NL blank_line_content
  /\ (segment_scenes be cfg prompt_text w).1
     = Ok [py "A dog."; []; py "A key."]
  /\ subtitles !! 1 = Some []
  /\ (image_call cfg [], Returned) ∈ log w'
  /\ (speech_call cfg [], Returned) ∈ log w'.
Proof.
  intros Hchat Hrun.
  split; [vm_compute; lia|].
  split; [vm_compute; apply elem_of_cons; right; apply elem_of_cons; by left|].
  pose proof (segment_scenes_run be cfg _ _ w Hchat) as Hseg.
  split; [by rewrite Hseg|].
  unfold generate_scene_images_and_audio in Hrun.
  rewrite (bind_step _ _ _ _ _ Hseg) in Hrun.
  apply assets_from_ok in Hrun as (Hr & _ & Hin).
  injection Hr as _ _ ->. split; [reflexivity|].
  apply Hin. vm_compute. apply elem_of_cons; right; apply elem_of_cons; by left.
Qed.
End AssetGenerator.

Lemma generate_assets_aligned_witness :
  exists image_files audio_files subtitles w',
    generate_assets (demo_backend (Ok []) (Ok [Byte.x01])) demo_config
                    [py "A"; py "B"] (py "/tmp/t") empty_world
    = (Ok (image_files, audio_files, subtitles), w')
    /\ image_files = [py "/tmp/t/scene_0.png"; py "/tmp/t/scene_1.png"]
    /\ length image_files = 2
    /\ length audio_files = 2
    /\ subtitles = [py "A"; py "B"]
    /\ forall i, i < 2 ->
         image_files !! i
         = Some (path_join (py "/tmp/t") (py "scene_" ++ str_of_nat i ++ py ".png"))
         /\ audio_files !! i
            = Some (path_join (py "/tmp/t") (py "scene_" ++ str_of_nat i ++ py ".mp3")).
Proof.
  eexists _, _, _, _. split; [vm_compute; reflexivity|].
  split; [reflexivity|].
  eapply (generate_assets_aligned (demo_backend (Ok []) (Ok [Byte.x01]))
            demo_config [py "A"; py "B"] (py "/tmp/t") empty_world).
  vm_compute. reflexivity.
Defined.

Lemma blank_line_gives_empty_scene_witness :
  exists image_files audio_files subtitles w',
    generate_scene_images_and_audio
      (demo_backend (Ok blank_line_content) (Ok [Byte.x01])) demo_config
      story (py "/tmp/t") empty_world
    = (Ok (image_files, audio_files, subtitles), w')
    /\ subtitles !! 1 = Some []
    /\ (ImagesGenerate (py "sk-demo") (py "dall-e-3") [] (py "512x512") 1,
        Returned) ∈ log w'
    /\ (ElevenlabsGenerate (py "el-demo") [] (py "voice-1")
                           (py "eleven_multilingual_v1"), Returned) ∈ log w'.
Proof.
  eexists _, _, _, _. split; [vm_compute; reflexivity|].
  eapply (blank_line_gives_empty_scene
            (demo_backend (Ok blank_line_content) (Ok [Byte.x01])) demo_config
            story (py "/tmp/t") empty_world).
  - reflexivity.
  - vm_compute. reflexivity.
Defined.

(** ** The Video Assembler *)

Section VideoAssembler.
Context {D : Type} `{Durations D} (be : Backend D).


Lemma zip3_length {A B C} (la : list A) (lb : list B) (lc : list C) :
  length la = length lb -> length lb = length lc ->
  length (zip3 la lb lc) = length la.
Proof.
  revert lb lc. induction la as [|a la IH]; intros [|b lb] [|c lc];
    simpl; try done.
  intros [=] [=]. f_equal. by apply IH.
Qed.

Lemma zip3_lookup {A B C} (la : list A) (lb : list B) (lc : list C) i s :
  zip3 la lb lc !! i = Some s ->
  la !! i = Some s.1.1 /\ lb !! i = Some s.1.2 /\ lc !! i = Some s.2.
Proof.
  revert lb lc i. induction la as [|a la IH]; intros [|b lb] [|c lc] [|i];
    simpl; try done.
  - by intros [= <-].
  - apply IH.
Qed.

(** What [AudioFileClip] and [ImageClip] return is what the files hold. *)
Lemma AudioFileClip_ok path (w : World D) a w' :
  AudioFileClip be path w = (Ok a, w') ->
  exists d, audio_length be w path = Some d /\ a = AudioFile path d
            /\ w' = logged (OpenAudioFileClip path) Returned w.
Proof.
  intros Hrun. ext_ok Hrun. destruct Hrun as [Hans ->].
  unfold audio_length, read_file in *.
  destruct (fs w !! path) as [[data|]|]; try discriminate.
  destruct (decode_audio be data) as [d|]; [|discriminate].
  injection Hans as <-. eauto.
Qed.

Lemma ImageClip_ok path (w : World D) c w' :
  ImageClip be path w = (Ok c, w') ->
  exists wh, image_size be w path = Some wh
             /\ c = Clip (Still path wh.1 wh.2) wh None None
             /\ w' = logged (OpenImageClip path) Returned w.
Proof.
  intros Hrun. ext_ok Hrun. destruct Hrun as [Hans ->].
  unfold image_size, read_file in *.
  destruct (fs w !! path) as [[data|]|]; try discriminate.
  destruct (decode_image be data) as [wh|]; [|discriminate].
  injection Hans as <-. eauto.
Qed.

Lemma TextClip_ok txt fontsize color bg method width (w : World D) c w' :
  TextClip be txt fontsize color bg method width w = (Ok c, w') ->
  exists wh, c = Clip (Caption txt fontsize color bg method width) wh None None
             /\ w' = logged (MakeTextClip txt fontsize color bg method width)
                            Returned w.
Proof.
  intros Hrun. ext_ok Hrun. destruct Hrun as [Hans ->].
  destruct (render_text be (log w) txt width) as [wh|]; [|discriminate].
  injection Hans as <-. eauto.
Qed.

Lemma audio_length_logged c o (w : World D) path :
  audio_length be (logged c o w) path = audio_length be w path.
Proof. reflexivity. Qed.

(** The loop reads the files, changes none, shows nothing, and appends
    one sub-clip per scene, in the order of the scenes. *)
Lemma clips_from_ok scenes :
  forall clips (w : World D) r w',
    clips_from be scenes clips w = (Ok r, w') ->
    fs w' = fs w /\ ui w' = ui w /\ log w `prefix_of` log w'
    /\ exists params,
         Forall2 (built_from be w) scenes params
         /\ r = clips ++ zip_with clip_of scenes params.
Proof.
  induction scenes as [|[[img aud] subtitle] rest IH];
    intros clips w r w' Hrun.
  - simpl in Hrun. injection Hrun as <- <-.
    repeat split; try done. exists []. split; [constructor|].
    by rewrite app_nil_r.
  - simpl in Hrun.
    step_ok Hrun. apply AudioFileClip_ok in Hcall as (d & Hd & -> & ->).
    step_ok Hrun. apply ImageClip_ok in Hcall as (wh & Hwh & -> & ->).
    step_ok Hrun. apply TextClip_ok in Hcall as (twh & -> & ->).
    apply IH in Hrun as (Hfs & Hui & Hpre & params & Hbuilt & ->).
    simpl in Hfs, Hui, Hpre.
    split; [done|]. split; [done|]. split.
    { etrans; [|exact Hpre]. rewrite <- !app_assoc. by apply prefix_app_r. }
    exists ((d, (wh, twh)) :: params). split.
    + constructor; [by split|].
      eapply Forall2_impl; [exact Hbuilt|].
      intros s p [Ha Hi]. split; [exact Ha|exact Hi].
    + rewrite <- app_assoc. reflexivity.
Qed.

Lemma built_from_length (w : World D) scenes params :
  Forall2 (built_from be w) scenes params -> length scenes = length params.
Proof. apply Forall2_length. Qed.

Lemma clip_of_duration scene params :
  duration (clip_of scene params) = Some (dmax params.1 params.1).
Proof. by destruct scene as [[img aud] subtitle]. Qed.

Lemma clip_of_audio scene params :
  audio (clip_of scene params) = Some (AudioFile scene.1.2 params.1).
Proof. by destruct scene as [[img aud] subtitle]. Qed.

Section Idempotent.
Hypothesis dmax_idem : forall d : D, dmax d d = d.

Lemma clips_durations scenes :
  forall params : list (D * ((N * N) * (N * N))),
    length scenes = length params ->
    dur_or_zero <$> zip_with clip_of scenes params = fst <$> params.
Proof using dmax_idem.
  induction scenes as [|s scenes IH]; intros [|p params]; simpl;
    try done.
  intros [=]. f_equal; [|by apply IH].
  unfold dur_or_zero. by rewrite clip_of_duration, dmax_idem.
Qed.
End Idempotent.

Lemma clips_audio scenes :
  forall (params : list (D * ((N * N) * (N * N)))) tt,
    audio_at (zip_with clip_of scenes params) tt
    = zip_with (fun track t => SetStart (AudioFile track.1 track.2) t)
               (zip ((fun s => s.1.2) <$> scenes) (fst <$> params)) tt.
Proof.
  induction scenes as [|s scenes IH]; intros [|p params] [|t tt]; simpl;
    try done.
  rewrite clip_of_audio. f_equal. apply IH.
Qed.

Lemma cumsum_from_length acc (ds : list D) :
  length (cumsum_from acc ds) = S (length ds).
Proof.
  revert acc. induction ds as [|d ds IH]; intros acc; simpl; [done|].
  by rewrite IH.
Qed.

Lemma AudioFileClip_step path (w : World D) d :
  audio_length be w path = Some d ->
  AudioFileClip be path w
  = (Ok (AudioFile path d), logged (OpenAudioFileClip path) Returned w).
Proof.
  intros Hd. unfold AudioFileClip. apply external_step.
  unfold audio_length, read_file in *.
  destruct (fs w !! path) as [[data|]|]; try discriminate.
  destruct (decode_audio be data); [|discriminate]. by injection Hd as ->.
Qed.

Lemma ImageClip_step path (w : World D) wh :
  image_size be w path = Some wh ->
  ImageClip be path w
  = (Ok (Clip (Still path wh.1 wh.2) wh None None),
     logged (OpenImageClip path) Returned w).
Proof.
  intros Hwh. unfold ImageClip. apply external_step.
  unfold image_size, read_file in *.
  destruct (fs w !! path) as [[data|]|]; try discriminate.
  destruct (decode_image be data); [|discriminate]. by injection Hwh as ->.
Qed.

(** The background music: no path, no file, or a file, and then line 90
    raises. *)
Lemma add_music_none final_clip (w : World D) :
  add_music be final_clip None w = (Ok final_clip, w).
Proof. reflexivity. Qed.

Lemma add_music_missing final_clip p (w : World D) :
  fs w !! p = None ->
  add_music be final_clip (Some p) w = (Ok final_clip, w).
Proof.
  intros Hmiss. unfold add_music, path_exists, bind, ret.
  destruct (truthy p); [|done].
  rewrite Hmiss. rewrite bool_decide_eq_false_2; [done|].
  by intros [? [=]].
Qed.

Lemma add_music_returns final_clip music_path (w : World D) :
  no_music_file w music_path ->
  add_music be final_clip music_path w = (Ok final_clip, w).
Proof.
  destruct music_path as [p|]; [|done].
  intros [->|Hmiss]; [done|]. by apply add_music_missing.
Qed.

Lemma add_music_existing final_clip p (w : World D) :
  p <> [] -> is_Some (fs w !! p) ->
  exists e w',
    add_music be final_clip (Some p) w = (Raise e, w')
    /\ fs w' = fs w /\ ui w' = ui w
    /\ (forall md,
          audio_length be w p = Some md ->
          e = no_attribute (py "AudioFileClip") (py "loop")
          /\ w' = logged (AttributeLoop (Volumex (AudioFile p md) (1 # 10)))
                         (Raised e)
                         (logged (OpenAudioFileClip p) Returned w)).
Proof.
  intros Hp Hex. unfold add_music.
  destruct p as [|c p]; [done|]. simpl truthy. cbv iota.
  erewrite bind_step.
  2:{ unfold path_exists. by rewrite bool_decide_eq_true_2 by done. }
  cbv beta iota.
  destruct (AudioFileClip be (c :: p) w) as [[music0|e] w1] eqn:Hopen.
  - apply AudioFileClip_ok in Hopen as (md & Hmd & -> & ->).
    rewrite (bind_step _ _ _ _ _ (AudioFileClip_step _ _ _ Hmd)).
    eexists _, _. split; [reflexivity|]. split; [done|]. split; [done|].
    intros md' Hmd'. rewrite Hmd in Hmd'. by injection Hmd' as <-.
  - rewrite (bind_abort _ _ _ _ _ Hopen).
    unfold AudioFileClip in Hopen. apply external_raise in Hopen as [Hans ->].
    exists e, (logged (OpenAudioFileClip (c :: p)) (Raised e) w).
    split; [done|]. split; [done|]. split; [done|].
    intros md Hmd. unfold audio_length, read_file in *.
    destruct (fs w !! (c :: p)) as [[data|]|]; try discriminate.
    by destruct (decode_audio be data).
Qed.

(** The music stage returns only when there is no music file, and then
    it returns the clip as it is. *)
Lemma add_music_ok final_clip music_path (w : World D) final w' :
  add_music be final_clip music_path w = (Ok final, w') ->
  final = final_clip /\ w' = w /\ no_music_file w music_path.
Proof.
  destruct music_path as [p|]; [|by intros [= <- <-]].
  destruct (decide (p = [])) as [->|Hp].
  { intros [= <- <-]. repeat split. by left. }
  destruct (fs w !! p) as [node|] eqn:Hnode.
  - destruct (add_music_existing final_clip p w Hp) as (e & w1 & Hrun & _);
      [by rewrite Hnode|].
    rewrite Hrun. discriminate.
  - rewrite add_music_missing by done. intros [= <- <-].
    repeat split. by right.
Qed.

(** A run of the assembler that goes through. *)
Lemma assemble_ok image_files audio_files subtitles music_path
    (w : World D) final w' :
  assemble be image_files audio_files subtitles music_path w
  = (Ok final, w') ->
  exists params w1,
    Forall2 (built_from be w) (zip3 image_files audio_files subtitles) params
    /\ params <> []
    /\ fs w1 = fs w /\ ui w1 = ui w
    /\ add_music be
         (concatenated
            (zip_with clip_of (zip3 image_files audio_files subtitles) params))
         music_path w1
       = (Ok final, w').
Proof.
  unfold assemble. intros Hrun.
  step_ok Hrun.
  apply clips_from_ok in Hcall as (Hfs & Hui & _ & params & Hbuilt & ->).
  step_ok Hrun. ext_ok Hcall. destruct Hcall as [Hans ->].
  simpl in Hans.
  exists params, (logged (ConcatenateVideoclips
                           (zip_with clip_of
                              (zip3 image_files audio_files subtitles) params))
                         Returned w0).
  split; [done|].
  destruct (zip_with clip_of _ params) as [|c clips] eqn:Hclips;
    [discriminate|].
  injection Hans as <-. repeat split; try done.
  intros ->. apply built_from_length in Hbuilt.
  destruct (zip3 image_files audio_files subtitles); discriminate.
Qed.

Lemma create_video_ok image_files audio_files subtitles output_path
    music_path (w : World D) u w' :
  create_video be image_files audio_files subtitles output_path music_path w
  = (Ok u, w') ->
  exists final w1 data,
    assemble be image_files audio_files subtitles music_path w
    = (Ok final, w1)
    /\ encode be (log w1) final 24 (py "libx264") (py "aac") = Ok data
    /\ w' = mkWorld (<[output_path := File data]> (fs w1))
                    (log w1 ++ [(WriteVideofile final output_path 24
                                   (py "libx264") (py "aac"), Returned)])
                    (ui w1).
Proof.
  unfold create_video. intros Hrun.
  step_ok Hrun. exists a, w0.
  step_ok Hrun. unfold write_videofile in Hcall0.
  destruct (encode be (log w0) a 24 (py "libx264") (py "aac")) as [data|e];
    [|discriminate].
  injection Hcall0 as <- <-. injection Hrun as <- <-. eauto.
Qed.

Lemma add_music_keeps final_clip music_path (w : World D) final w' :
  add_music be final_clip music_path w = (Ok final, w') ->
  picture final = picture final_clip /\ duration final = duration final_clip.
Proof.
  by intros (-> & _ & _)%add_music_ok.
Qed.


Lemma concatenated_duration (clips : list (VideoClip D)) :
  duration (concatenated clips) = Some (total (dur_or_zero <$> clips)).
Proof. reflexivity. Qed.

Lemma concatenated_audio (clips : list (VideoClip D)) tracks :
  audio_at clips (cumsum_from dzero (dur_or_zero <$> clips)) = tracks ->
  tracks <> [] ->
  audio (concatenated clips) = Some (CompositeAudio tracks).
Proof. unfold concatenated. simpl. intros -> ?. by case_match. Qed.

(** *** When the assembler returns *)

Lemma clips_from_returns scenes :
  forall clips (w : World D),
    Forall (scene_files_ok be w) scenes ->
    tools_answer be ->
    exists r w', clips_from be scenes clips w = (Ok r, w').
Proof.
  induction scenes as [|[[img aud] subtitle] rest IH];
    intros clips w Hfiles Htools.
  - by eexists _, _.
  - apply Forall_cons in Hfiles as [[[d Hd] [wh Hwh]] Hrest].
    simpl in Hd, Hwh. simpl.
    erewrite bind_step by (by apply AudioFileClip_step).
    erewrite bind_step by (by apply ImageClip_step).
    destruct (proj1 Htools
                (log (logged (OpenImageClip img) Returned
                        (logged (OpenAudioFileClip aud) Returned w)))
                subtitle
                (inject_Z (Z.of_N wh.1) * (9 # 10))%Q) as [twh Htwh].
    erewrite bind_step.
    2:{ unfold TextClip. apply external_step. simpl. simpl in Htwh.
        rewrite Htwh. reflexivity. }
    apply IH; [exact Hrest|exact Htools].
Qed.

Lemma assemble_returns image_files audio_files subtitles music_path
    (w : World D) :
  zip3 image_files audio_files subtitles <> [] ->
  Forall (scene_files_ok be w) (zip3 image_files audio_files subtitles) ->
  tools_answer be ->
  no_music_file w music_path ->
  exists final w',
    assemble be image_files audio_files subtitles music_path w
    = (Ok final, w').
Proof.
  intros Hne Hfiles Htools Hmusic. unfold assemble.
  destruct (clips_from_returns _ [] w Hfiles Htools) as (clips & w1 & Hclips).
  rewrite (bind_step _ _ _ _ _ Hclips).
  apply clips_from_ok in Hclips as (Hfs & _ & _ & params & Hbuilt & ->).
  pose proof (built_from_length _ _ _ Hbuilt) as Hlen.
  destruct (zip3 image_files audio_files subtitles) as [|s scenes] eqn:Hs;
    [done|].
  destruct params as [|p params]; [done|].
  erewrite bind_step.
  2:{ unfold concatenate_videoclips. by apply external_step. }
  rewrite add_music_returns; [by eexists _, _|].
  destruct music_path as [q|]; [|done].
  unfold no_music_file in *. simpl. by rewrite Hfs.
Qed.

Lemma create_video_returns image_files audio_files subtitles output_path
    music_path (w : World D) :
  zip3 image_files audio_files subtitles <> [] ->
  Forall (scene_files_ok be w) (zip3 image_files audio_files subtitles) ->
  tools_answer be ->
  no_music_file w music_path ->
  exists w',
    create_video be image_files audio_files subtitles output_path
                 music_path w = (Ok tt, w').
Proof.
  intros Hne Hfiles Htools Hmusic. unfold create_video.
  destruct (assemble_returns _ _ _ music_path w Hne Hfiles Htools Hmusic)
    as (final & w1 & Hasm).
  rewrite (bind_step _ _ _ _ _ Hasm).
  destruct (proj2 Htools (log w1) final 24%N (py "libx264") (py "aac"))
    as [data Hdata].
  eexists. erewrite bind_step; [reflexivity|].
  unfold write_videofile. by rewrite Hdata.
Qed.

Section Claims.
Hypothesis dmax_idem : forall d : D, dmax d d = d.



Lemma concatenated_narration scenes
    (params : list (D * ((N * N) * (N * N)))) :
  length scenes = length params -> params <> [] ->
  audio (concatenated (zip_with clip_of scenes params))
  = Some (narration (zip ((fun s => s.1.2) <$> scenes) (fst <$> params))).
Proof using dmax_idem.
  intros Hlen Hne. unfold narration.
  rewrite snd_zip by (rewrite !length_fmap; lia).
  apply concatenated_audio.
  - by rewrite clips_audio, clips_durations.
  - destruct scenes as [|s scenes], params as [|p params]; try done.
Qed.

(** The audio of a run that returns is the narration alone. *)
Lemma returned_video_is_narrated image_files audio_files subtitles
    output_path music_path (w w' : World D) :
  create_video be image_files audio_files subtitles output_path
               music_path w = (Ok tt, w') ->
  exists final ds,
    last (log w')
    = Some (WriteVideofile final output_path 24 (py "libx264") (py "aac"),
            Returned)
    /\ Forall2 (fun s d => audio_length be w s.1.2 = Some d)
               (zip3 image_files audio_files subtitles) ds
    /\ duration final = Some (total ds)
    /\ audio final
       = Some (narration
                 (zip ((fun s => s.1.2)
                         <$> zip3 image_files audio_files subtitles)
                      ds)).
Proof using dmax_idem.
  intros Hrun.
  apply create_video_ok in Hrun as (final & w1 & data & Hasm & _ & ->).
  apply assemble_ok in Hasm as (params & w2 & Hbuilt & Hne & _ & _ & Hmusic).
  pose proof (built_from_length _ _ _ Hbuilt) as Hlen.
  set (scenes := zip3 image_files audio_files subtitles) in *.
  apply add_music_ok in Hmusic as (-> & _ & _).
  exists (concatenated (zip_with clip_of scenes params)), (fst <$> params).
  split; [simpl; apply last_snoc|].
  split.
  { apply Forall2_fmap_r. eapply Forall2_impl; [exact Hbuilt|].
    by intros s p [Ha _]. }
  split; [by rewrite concatenated_duration, clips_durations|].
  by apply concatenated_narration.
Qed.

(** C7: a music path at which there is no file changes nothing: the
    assembler does exactly what it does without a music path; when the
    files of the scenes can be decoded and the renderer and the
    encoder answer, it returns, and the audio of the video handed to
    the encoder is the narration alone. *)
Theorem missing_music_is_no_music image_files audio_files subtitles
    output_path p (w : World D) :
  fs w !! p = None ->
  create_video be image_files audio_files subtitles output_path (Some p) w
  = create_video be image_files audio_files subtitles output_path None w
  /\ (zip3 image_files audio_files subtitles <> [] ->
      Forall (scene_files_ok be w)
             (zip3 image_files audio_files subtitles) ->
      tools_answer be ->
      exists w' final ds,
        create_video be image_files audio_files subtitles output_path
                     (Some p) w = (Ok tt, w')
        /\ last (log w')
           = Some (WriteVideofile final output_path 24 (py "libx264")
                                  (py "aac"), Returned)
        /\ Forall2 (fun s d => audio_length be w s.1.2 = Some d)
                   (zip3 image_files audio_files subtitles) ds
        /\ duration final = Some (total ds)
        /\ audio final
           = Some (narration
                     (zip ((fun s => s.1.2)
                             <$> zip3 image_files audio_files subtitles)
                          ds))).
Proof using dmax_idem.
  intros Hmiss. split.
  - unfold create_video, assemble, bind.
    destruct (clips_from be _ [] w) as [[clips|e] w1] eqn:Hclips; [|done].
    apply clips_from_ok in Hclips as (Hfs & _).
    destruct (concatenate_videoclips be clips w1) as [[final|e] w2] eqn:Hcat;
      [|done].
    ext_ok Hcat. destruct Hcat as [_ ->].
    rewrite add_music_missing, add_music_none; [done|].
    simpl. by rewrite Hfs.
  - intros Hne Hfiles Htools.
    destruct (create_video_returns image_files audio_files subtitles
                output_path (Some p) w Hne Hfiles Htools)
      as [w' Hrun]; [by right|].
    destruct (returned_video_is_narrated _ _ _ _ _ _ _ Hrun)
      as (final & ds & Hfinal).
    by exists w', final, ds.
Qed.

End Claims.

(** C4: the code misses what the claim says.  With a music path whose
    file exists, the assembler never returns; when everything else goes
    through, what it raises is the [AttributeError] of [.loop] on line
    90, raised after the music file was opened, and no video is
    written. *)
Theorem existing_music_file_raises image_files audio_files subtitles
    output_path p (w : World D) r w' :
  p <> [] -> is_Some (fs w !! p) ->
  create_video be image_files audio_files subtitles output_path (Some p) w
  = (r, w') ->
  (exists e, r = Raise e)
  /\ (zip3 image_files audio_files subtitles <> [] ->
      Forall (scene_files_ok be w) (zip3 image_files audio_files subtitles) ->
      tools_answer be ->
      forall md,
        audio_length be w p = Some md ->
        r = Raise (no_attribute (py "AudioFileClip") (py "loop"))
        /\ last (log w')
           = Some (AttributeLoop (Volumex (AudioFile p md) (1 # 10)),
                   Raised (no_attribute (py "AudioFileClip") (py "loop")))).
Proof.
  intros Hp Hex Hrun. split.
  - unfold create_video in Hrun.
    destruct (assemble be image_files audio_files subtitles (Some p) w)
      as [[final|e] w1] eqn:Hasm.
    + apply assemble_ok in Hasm as (params & w2 & _ & _ & Hfs & _ & Hmusic).
      apply add_music_ok in Hmusic as (_ & _ & [->|Hmiss]); [done|].
      rewrite Hfs in Hmiss. rewrite Hmiss in Hex. by destruct Hex.
    + rewrite (bind_abort _ _ _ _ _ Hasm) in Hrun. injection Hrun as <- _.
      by exists e.
  - intros Hne Hfiles Htools md Hmd.
    destruct (clips_from_returns _ [] w Hfiles Htools) as (clips & w1 & Hclips).
    pose proof (clips_from_ok _ _ _ _ _ Hclips)
      as (Hfs & _ & _ & params & Hbuilt & ->).
    pose proof (built_from_length _ _ _ Hbuilt) as Hlen.
    destruct (zip3 image_files audio_files subtitles) as [|s scenes] eqn:Hs;
      [done|].
    destruct params as [|q params]; [done|].
    set (w2 := logged (ConcatenateVideoclips
                         ([] ++ zip_with clip_of (s :: scenes) (q :: params)))
                      Returned w1).
    destruct (add_music_existing
                (concatenated ([] ++ zip_with clip_of (s :: scenes)
                                              (q :: params)))
                p w2 Hp) as (e & w3 & Hadd & _ & _ & Hloop).
    { simpl. by rewrite Hfs. }
    destruct (Hloop md) as [-> ->].
    { unfold audio_length in *. simpl. by rewrite Hfs. }
    unfold create_video, assemble in Hrun. rewrite Hs in Hrun.
    erewrite bind_abort in Hrun.
    2:{ erewrite bind_step by exact Hclips.
        erewrite bind_step.
        2:{ unfold concatenate_videoclips. by apply external_step. }
        exact Hadd. }
    injection Hrun as <- <-. split; [done|]. simpl. apply last_snoc.
Qed.
End VideoAssembler.

Example studio_video :
  lift (fun c => (duration c, audio c))
       (assemble (demo_backend (Ok []) (Ok [])) studio_images studio_audio
                 studio_subtitles None studio).1
  = Ok (Some 5000%N,
        Some (CompositeAudio
                [SetStart (AudioFile (py "/t/scene_0.mp3") 2000%N) 0%N;
                 SetStart (AudioFile (py "/t/scene_1.mp3") 3000%N) 2000%N])).
Proof. vm_compute. reflexivity. Qed.

Example studio_video_with_music :
  (create_video (demo_backend (Ok []) (Ok [])) studio_images studio_audio
                studio_subtitles (py "/t/out.mp4") (Some (py "/t/music.mp3"))
                studio).1
  = Raise (mkExn (py "'AudioFileClip' object has no attribute 'loop'")).
Proof. vm_compute. reflexivity. Qed.


Lemma existing_music_file_raises_witness :
  exists r w',
    create_video (demo_backend (Ok []) (Ok [])) studio_images studio_audio
                 studio_subtitles (py "/t/out.mp4") (Some (py "/t/music.mp3"))
                 studio = (r, w')
    /\ (exists e, r = Raise e)
    /\ r = Raise (no_attribute (py "AudioFileClip") (py "loop"))
    /\ last (log w')
       = Some (AttributeLoop
                 (Volumex (AudioFile (py "/t/music.mp3") 1000%N) (1 # 10)),
               Raised (no_attribute (py "AudioFileClip") (py "loop"))).
Proof.
  eexists _, _. split; [vm_compute; reflexivity|].
  destruct (existing_music_file_raises
              (demo_backend (Ok []) (Ok [])) studio_images studio_audio
              studio_subtitles (py "/t/out.mp4") (py "/t/music.mp3") studio
              _ _ ltac:(discriminate) ltac:(vm_compute; eauto)
              ltac:(vm_compute; reflexivity)) as [Hraises Hloop].
  split; [exact Hraises|].
  apply (Hloop ltac:(discriminate)).
  - repeat constructor; vm_compute; eauto.
  - split; intros; eexists; reflexivity.
  - reflexivity.
Defined.

Lemma missing_music_is_no_music_witness :
  create_video (demo_backend (Ok []) (Ok [])) studio_images studio_audio
               studio_subtitles (py "/t/out.mp4") (Some (py "/t/none.mp3"))
               studio
  = create_video (demo_backend (Ok []) (Ok [])) studio_images studio_audio
                 studio_subtitles (py "/t/out.mp4") None studio
  /\ exists w' final ds,
       create_video (demo_backend (Ok []) (Ok [])) studio_images studio_audio
                    studio_subtitles (py "/t/out.mp4")
                    (Some (py "/t/none.mp3")) studio = (Ok tt, w')
       /\ last (log w')
          = Some (WriteVideofile final (py "/t/out.mp4") 24 (py "libx264")
                                 (py "aac"), Returned)
       /\ Forall2 (fun s d => audio_length (demo_backend (Ok []) (Ok []))
                                           studio s.1.2 = Some d)
                  (zip3 studio_images studio_audio studio_subtitles) ds
       /\ duration final = Some (total ds)
       /\ audio final
          = Some (narration
                    (zip ((fun s => s.1.2)
                            <$> zip3 studio_images studio_audio
                                     studio_subtitles) ds)).
Proof.
  destruct (@missing_music_is_no_music N N_durations
              (demo_backend (Ok []) (Ok [])) N.max_id
              studio_images studio_audio studio_subtitles (py "/t/out.mp4")
              (py "/t/none.mp3") studio) as [Hsame Hnarrated].
  - vm_compute. reflexivity.
  - split; [exact Hsame|]. apply Hnarrated.
    + discriminate.
    + repeat constructor; vm_compute; eauto.
    + split; intros; eexists; reflexivity.
Defined.



(** ** Errors *)

Section Tracing.
Context {D : Type}.

Lemma traced_ret {A} (a : A) : traced (@ret D A a).
Proof.
  intros w. simpl. exists []. split; [by rewrite app_nil_r|constructor].
Qed.

Lemma traced_external {A} (c : Call D) (f : World D -> Result A) :
  traced (external c f).
Proof.
  intros w. unfold external. destruct (f w) as [a|e]; simpl.
  - exists [(c, Returned)]. split; [done|]. by repeat constructor.
  - exists [], c. split; [done|]. constructor.
Qed.

Lemma traced_put_file path data : traced (@put_file D path data).
Proof.
  intros w. simpl. exists []. split; [by rewrite app_nil_r|constructor].
Qed.

Lemma traced_show x : traced (@show D x).
Proof.
  intros w. simpl. exists []. split; [by rewrite app_nil_r|constructor].
Qed.

Lemma traced_bind {A B} (m : M D A) (k : A -> M D B) :
  traced m -> (forall a, traced (k a)) -> traced (bind m k).
Proof.
  intros Hm Hk w. unfold bind. specialize (Hm w).
  destruct (m w) as [[a|e] w1]; [|done].
  destruct Hm as (calls1 & Hlog1 & Hret1). specialize (Hk a w1).
  destruct (k a w1) as [[b|e] w2].
  - destruct Hk as (calls2 & Hlog2 & Hret2). exists (calls1 ++ calls2).
    split; [by rewrite Hlog2, Hlog1, app_assoc|]. by apply Forall_app.
  - destruct Hk as (calls2 & c & Hlog2 & Hret2). exists (calls1 ++ calls2), c.
    split; [by rewrite Hlog2, Hlog1, !app_assoc|]. by apply Forall_app.
Qed.

Lemma quiet_ret {A} (a : A) : quiet (@ret D A a).
Proof. by intros w r w' [= <- <-]. Qed.

Lemma quiet_external {A} (c : Call D) (f : World D -> Result A) :
  quiet (external c f).
Proof.
  intros w r w'. unfold external. by destruct (f w); intros [= <- <-].
Qed.

Lemma quiet_put_file path data : quiet (@put_file D path data).
Proof. by intros w r w' [= <- <-]. Qed.

Lemma quiet_bind {A B} (m : M D A) (k : A -> M D B) :
  quiet m -> (forall a, quiet (k a)) -> quiet (bind m k).
Proof.
  intros Hm Hk w r w'. unfold bind.
  destruct (m w) as [[a|e] w1] eqn:Hrun.
  - intros Hk'. rewrite (Hk _ _ _ _ Hk'). by eapply Hm.
  - intros [= <- <-]. by eapply Hm.
Qed.

Section Appends.
Variable P : Call D * Outcome -> Prop.

Lemma appends_silent {A} (m : M D A) :
  (forall w, log (m w).2 = log w) -> appends P m.
Proof.
  intros Hm w. exists []. split; [by rewrite Hm, app_nil_r|constructor].
Qed.

Lemma appends_ret {A} (a : A) : appends P (@ret D A a).
Proof. by apply appends_silent. Qed.

Lemma appends_put_file path data : appends P (@put_file D path data).
Proof. by apply appends_silent. Qed.

Lemma appends_show x : appends P (@show D x).
Proof. by apply appends_silent. Qed.

Lemma appends_external {A} (c : Call D) (f : World D -> Result A) :
  (forall o, P (c, o)) -> appends P (external c f).
Proof.
  intros Hc w. unfold external. destruct (f w) as [a|e]; simpl.
  - exists [(c, Returned)]. split; [done|]. by repeat constructor.
  - exists [(c, Raised e)]. split; [done|]. by repeat constructor.
Qed.

Lemma appends_bind {A B} (m : M D A) (k : A -> M D B) :
  appends P m -> (forall a, appends P (k a)) -> appends P (bind m k).
Proof.
  intros Hm Hk w. unfold bind. specialize (Hm w).
  destruct (m w) as [[a|e] w1]; [|done].
  destruct Hm as (calls1 & Hlog1 & HP1). destruct (Hk a w1)
    as (calls2 & Hlog2 & HP2).
  exists (calls1 ++ calls2). simpl in *.
  split; [by rewrite Hlog2, Hlog1, app_assoc|]. by apply Forall_app.
Qed.
End Appends.

Lemma all_returned_no_raise (calls : Log D) c e :
  all_returned calls -> (c, Raised e) ∈ calls -> False.
Proof.
  intros Hall Hin. unfold all_returned in Hall.
  rewrite Forall_forall in Hall. by specialize (Hall _ Hin).
Qed.
End Tracing.

Create HintDb stage discriminated.
#[export] Hint Resolve traced_ret traced_external traced_put_file traced_show
  quiet_ret quiet_external quiet_put_file
  appends_ret appends_put_file appends_show : stage.

Ltac stage :=
  repeat first
    [ progress eauto with stage
    | apply traced_bind; [|intros ?]
    | apply quiet_bind; [|intros ?]
    | apply appends_bind; [|intros ?]
    | apply appends_external; intros ?; by simpl ].

Section Stages.
Context {D : Type} `{Durations D} (be : Backend D) (cfg : Config).

Lemma traced_write_file path data : traced (write_file be path data).
Proof. unfold write_file. stage. Qed.

Lemma quiet_write_file path data : quiet (write_file be path data).
Proof. unfold write_file. stage. Qed.

Lemma traced_segment_scenes prompt_text :
  traced (segment_scenes be cfg prompt_text).
Proof. unfold segment_scenes, chat_completions_create. stage. Qed.

Lemma quiet_segment_scenes prompt_text :
  quiet (segment_scenes be cfg prompt_text).
Proof. unfold segment_scenes, chat_completions_create. stage. Qed.

Lemma traced_assets_from dir scenes_text :
  forall i acc, traced (assets_from be cfg dir i scenes_text acc).
Proof.
  induction scenes_text as [|s rest IH]; intros i [[imgs auds] subs]; simpl.
  - stage.
  - unfold images_generate, requests_get, generate.
    pose proof traced_write_file. stage.
Qed.

Lemma quiet_assets_from dir scenes_text :
  forall i acc, quiet (assets_from be cfg dir i scenes_text acc).
Proof.
  induction scenes_text as [|s rest IH]; intros i [[imgs auds] subs]; simpl.
  - stage.
  - unfold images_generate, requests_get, generate.
    pose proof quiet_write_file. stage.
Qed.

Lemma traced_generate prompt_text dir :
  traced (generate_scene_images_and_audio be cfg prompt_text dir).
Proof.
  unfold generate_scene_images_and_audio, generate_assets.
  pose proof traced_segment_scenes. pose proof traced_assets_from. stage.
Qed.

Lemma quiet_generate prompt_text dir :
  quiet (generate_scene_images_and_audio be cfg prompt_text dir).
Proof.
  unfold generate_scene_images_and_audio, generate_assets.
  pose proof quiet_segment_scenes. pose proof quiet_assets_from. stage.
Qed.

Lemma traced_clips_from scenes :
  forall clips, traced (clips_from be scenes clips).
Proof.
  induction scenes as [|[[img aud] subtitle] rest IH]; intros clips; simpl.
  - stage.
  - unfold AudioFileClip, ImageClip, TextClip. stage.
Qed.

Lemma quiet_clips_from scenes :
  forall clips, quiet (clips_from be scenes clips).
Proof.
  induction scenes as [|[[img aud] subtitle] rest IH]; intros clips; simpl.
  - stage.
  - unfold AudioFileClip, ImageClip, TextClip. stage.
Qed.

Lemma traced_path_exists path : traced (@path_exists D path).
Proof.
  intros w. simpl. exists []. split; [by rewrite app_nil_r|constructor].
Qed.

Lemma quiet_path_exists path : quiet (@path_exists D path).
Proof. by intros w r w' [= <- <-]. Qed.

Lemma traced_add_music final_clip music_path :
  traced (add_music be final_clip music_path).
Proof.
  unfold add_music, AudioFileClip, CompositeAudioClip, attribute_loop.
  pose proof traced_path_exists.
  apply traced_bind.
  - destruct music_path as [p|]; [destruct (truthy p)|]; stage.
  - intros [|]; destruct music_path; stage.
Qed.

Lemma quiet_add_music final_clip music_path :
  quiet (add_music be final_clip music_path).
Proof.
  unfold add_music, AudioFileClip, CompositeAudioClip, attribute_loop.
  pose proof quiet_path_exists.
  apply quiet_bind.
  - destruct music_path as [p|]; [destruct (truthy p)|]; stage.
  - intros [|]; destruct music_path; stage.
Qed.

Lemma traced_write_videofile clip path fps codec audio_codec :
  traced (write_videofile be clip path fps codec audio_codec).
Proof.
  intros w. unfold write_videofile.
  destruct (encode be (log w) clip fps codec audio_codec) as [data|e]; simpl.
  - eexists [_]. split; [done|]. by repeat constructor.
  - eexists [], _. split; [done|]. constructor.
Qed.

Lemma quiet_write_videofile clip path fps codec audio_codec :
  quiet (write_videofile be clip path fps codec audio_codec).
Proof.
  intros w r w'. unfold write_videofile.
  by destruct (encode be (log w) clip fps codec audio_codec);
    intros [= <- <-].
Qed.

Lemma keyed_write_videofile clip path fps codec audio_codec :
  appends (uses_config cfg)
          (write_videofile be clip path fps codec audio_codec).
Proof.
  intros w. unfold write_videofile.
  destruct (encode be (log w) clip fps codec audio_codec) as [data|e]; simpl;
    eexists [_]; (split; [done|]); by repeat constructor.
Qed.

Lemma traced_create_video image_files audio_files subtitles output_path
    music_path :
  traced (create_video be image_files audio_files subtitles output_path
                       music_path).
Proof.
  unfold create_video, assemble, concatenate_videoclips.
  pose proof traced_clips_from. pose proof traced_add_music.
  pose proof traced_write_videofile. stage.
Qed.

Lemma quiet_create_video image_files audio_files subtitles output_path
    music_path :
  quiet (create_video be image_files audio_files subtitles output_path
                      music_path).
Proof.
  unfold create_video, assemble, concatenate_videoclips.
  pose proof quiet_clips_from. pose proof quiet_add_music.
  pose proof quiet_write_videofile. stage.
Qed.

Lemma keyed_assets_from dir scenes_text :
  forall i acc,
    appends (uses_config cfg) (assets_from be cfg dir i scenes_text acc).
Proof.
  induction scenes_text as [|s rest IH]; intros i [[imgs auds] subs]; simpl.
  - stage.
  - unfold images_generate, requests_get, generate, write_file. stage.
Qed.

Lemma keyed_clips_from scenes :
  forall clips, appends (uses_config cfg) (clips_from be scenes clips).
Proof.
  induction scenes as [|[[img aud] subtitle] rest IH]; intros clips; simpl.
  - stage.
  - unfold AudioFileClip, ImageClip, TextClip. stage.
Qed.

Lemma keyed_add_music final_clip music_path :
  appends (uses_config cfg) (add_music be final_clip music_path).
Proof.
  unfold add_music, AudioFileClip, CompositeAudioClip, attribute_loop.
  apply appends_bind.
  - destruct music_path as [p|]; [destruct (truthy p)|]; stage.
    by apply appends_silent.
  - intros [|]; destruct music_path; stage.
Qed.

Lemma keyed_pipeline inp : appends (uses_config cfg) (pipeline be cfg inp).
Proof.
  unfold pipeline, generate_scene_images_and_audio, generate_assets,
    segment_scenes, chat_completions_create.
  pose proof keyed_assets_from.
  apply appends_bind; [stage|].
  intros [[image_files audio_files] subtitles].
  unfold save_music, write_file, st_video, create_video, assemble,
    concatenate_videoclips.
  pose proof keyed_clips_from. pose proof keyed_add_music.
  pose proof keyed_write_videofile.
  apply appends_bind; [destruct (music_upload inp); stage|].
  intros music_path. stage.
Qed.

(** The whole run only ever sends the credentials it was given. *)
Lemma keyed_run inp : appends (uses_config cfg) (run be cfg inp).
Proof.
  intros w. unfold run, with_temporary_directory, bind, show, try_except.
  simpl.
  match goal with
  | |- context [pipeline be cfg inp ?x] =>
      destruct (keyed_pipeline inp x) as (calls & Hlog & Hkeys);
      destruct (pipeline be cfg inp x) as [[[]|e] w1]
  end; by exists calls.
Qed.

Lemma traced_save_music inp : traced (save_music be inp).
Proof.
  unfold save_music. pose proof traced_write_file.
  destruct (music_upload inp); stage.
Qed.

Lemma quiet_save_music inp : quiet (save_music be inp).
Proof.
  unfold save_music. pose proof quiet_write_file.
  destruct (music_upload inp); stage.
Qed.

Lemma traced_pipeline inp : traced (pipeline be cfg inp).
Proof.
  unfold pipeline. apply traced_bind; [apply traced_generate|].
  intros [[image_files audio_files] subtitles].
  unfold st_video.
  pose proof traced_save_music. pose proof traced_create_video. stage.
Qed.

(** What the body of [try] shows: the second banner, the video and the
    success message when it returns; at most the banner when it
    raises. *)
Lemma pipeline_ui inp (w : World D) r w' :
  pipeline be cfg inp w = (r, w') ->
  match r with
  | Ok _ =>
      exists data,
        ui w' = ui w ++ [StInfo (py "Creating video..."); StVideo data;
                         StSuccess (py "Video generated successfully!")]
  | Raise _ => exists infos, ui w' = ui w ++ infos /\ Forall is_info infos
  end.
Proof.
  unfold pipeline. intros Hrun.
  destruct (generate_scene_images_and_audio be cfg (text_input inp)
              (temp_dir inp) w)
    as [[[[image_files audio_files] subtitles]|e] w1] eqn:Hgen.
  2:{ rewrite (bind_abort _ _ _ _ _ Hgen) in Hrun. injection Hrun as <- <-.
      exists []. rewrite app_nil_r.
      split; [by eapply quiet_generate|constructor]. }
  rewrite (bind_step _ _ _ _ _ Hgen) in Hrun.
  apply quiet_generate in Hgen.
  destruct (save_music be inp w1) as [[music_path|e] w2] eqn:Hmusic.
  2:{ rewrite (bind_abort _ _ _ _ _ Hmusic) in Hrun. injection Hrun as <- <-.
      exists []. rewrite app_nil_r. split; [|constructor].
      apply quiet_save_music in Hmusic. congruence. }
  rewrite (bind_step _ _ _ _ _ Hmusic) in Hrun.
  apply quiet_save_music in Hmusic.
  erewrite bind_step in Hrun by reflexivity.
  match type of Hrun with
  | bind (create_video ?b ?i ?a ?s ?o ?m) _ ?w0 = _ =>
      destruct (create_video b i a s o m w0) as [[u|e] w3] eqn:Hvideo
  end.
  2:{ rewrite (bind_abort _ _ _ _ _ Hvideo) in Hrun. injection Hrun as <- <-.
      exists [StInfo (py "Creating video...")]. split; [|by repeat constructor].
      apply quiet_create_video in Hvideo. simpl in Hvideo. congruence. }
  rewrite (bind_step _ _ _ _ _ Hvideo) in Hrun.
  apply quiet_create_video in Hvideo. simpl in Hvideo.
  unfold st_video in Hrun.
  match type of Hrun with
  | bind (bind (external ?c ?f) _) _ ?w0 = _ =>
      destruct (external c f w0) as [[data|e] w4] eqn:Hread
  end.
  2:{ erewrite bind_abort in Hrun by (by erewrite bind_abort).
      injection Hrun as <- <-.
      exists [StInfo (py "Creating video...")]. split; [|by repeat constructor].
      apply quiet_external in Hread. congruence. }
  erewrite bind_step in Hrun by (by erewrite bind_step).
  apply quiet_external in Hread.
  injection Hrun as <- <-. exists data. simpl.
  rewrite Hread, Hvideo, Hmusic, Hgen. by rewrite <- !app_assoc.
Qed.

(** C5: in a run, an exception raised by any call of any stage is the
    last call of the run (nothing catches it on the way, nothing is
    retried, nothing runs after it); the run shows, after its banners,
    one error message made of that exception, and no video. *)
Theorem every_error_reaches_the_handler inp (w : World D) r w' :
  run be cfg inp w = (r, w') ->
  r = Ok tt
  /\ exists calls,
       log w' = log w ++ calls
       /\ (forall c e,
             (c, Raised e) ∈ calls ->
             (exists before,
                calls = before ++ [(c, Raised e)] /\ all_returned before)
             /\ (exists infos,
                   ui w' = ui w ++ infos
                             ++ [StError (py "Error: " ++ exn_str e)]
                   /\ Forall is_info infos))
       /\ (all_returned calls ->
           exists data,
             ui w'
             = ui w ++ [StInfo (py "Generating scenes, images, and audio...");
                        StInfo (py "Creating video..."); StVideo data;
                        StSuccess (py "Video generated successfully!")]).
Proof.
  unfold run, with_temporary_directory, bind, show, try_except.
  simpl.
  match goal with
  | |- context [pipeline be cfg inp ?x] => set (w0 := x)
  end.
  pose proof (traced_pipeline inp w0) as Htr.
  pose proof (pipeline_ui inp w0) as Hui.
  destruct (pipeline be cfg inp w0) as [[[]|e0] w1]; intros [= <- <-];
    specialize (Hui _ _ eq_refl); simpl in *.
  - destruct Htr as (calls & Hlog & Hret). destruct Hui as (data & Hui).
    split; [done|]. exists calls. split; [done|]. split.
    + intros c e Hin. by destruct (all_returned_no_raise _ _ _ Hret Hin).
    + intros _. exists data. by rewrite Hui, <- app_assoc.
  - destruct Htr as (before & c0 & Hlog & Hret).
    destruct Hui as (infos & Hui & Hinfos).
    split; [done|]. exists (before ++ [(c0, Raised e0)]). split; [done|].
    split.
    + intros c e [Hin|Hin]%elem_of_app.
      { by destruct (all_returned_no_raise _ _ _ Hret Hin). }
      apply list_elem_of_singleton in Hin. inversion Hin; subst c0 e0.
      split; [by exists before|].
      exists (StInfo (py "Generating scenes, images, and audio...") :: infos).
      split; [|by constructor].
      rewrite Hui. by rewrite <- !app_assoc.
    + intros [_ Hlast]%Forall_app. by inversion Hlast.
Qed.
End Stages.

Lemma every_error_reaches_the_handler_witness :
  exists w',
    run (demo_backend (Ok blank_line_content) (Raise (mkExn (py "quota"))))
        demo_config (demo_inputs None) empty_world = (Ok tt, w')
    /\ (ElevenlabsGenerate (py "el-demo") (py "A dog.") (py "voice-1")
                           (py "eleven_multilingual_v1"),
        Raised (mkExn (py "quota"))) ∈ log w'
    /\ ui w' = [StInfo (py "Generating scenes, images, and audio...");
                StError (py "Error: quota")]
    /\ Ok tt = Ok tt
    /\ exists calls,
         log w' = log empty_world ++ calls
         /\ (forall c e,
               (c, Raised e) ∈ calls ->
               (exists before,
                  calls = before ++ [(c, Raised e)] /\ all_returned before)
               /\ (exists infos,
                     ui w' = ui empty_world ++ infos
                               ++ [StError (py "Error: " ++ exn_str e)]
                     /\ Forall is_info infos))
         /\ (all_returned calls ->
             exists data,
               ui w'
               = ui empty_world
                   ++ [StInfo (py "Generating scenes, images, and audio...");
                       StInfo (py "Creating video..."); StVideo data;
                       StSuccess (py "Video generated successfully!")]).
Proof.
  eexists. split; [vm_compute; reflexivity|].
  split.
  { cbn [log]. do 4 (apply elem_of_cons; right). apply elem_of_cons. by left. }
  split; [vm_compute; reflexivity|].
  eapply (every_error_reaches_the_handler
            (demo_backend (Ok blank_line_content) (Raise (mkExn (py "quota"))))
            demo_config (demo_inputs None) empty_world).
  vm_compute. reflexivity.
Defined.

(** ** Startup *)

Section Startup.
Context {D : Type} `{Durations D} (be : Backend D).

Lemma script_with_secrets secrets inp (w : World D) k1 k2 v :
  secrets !! py "OPENAI_API_KEY" = Some k1 ->
  secrets !! py "ELEVENLABS_API_KEY" = Some k2 ->
  secrets !! py "VOICE_ID" = Some v ->
  script be secrets inp w
  = if truthy k1 && truthy k2 && truthy v then
      if button inp && truthy (strip (text_input inp)) then
        (let! _ := run be {| openai_api_key := k1;
                             elevenlabs_api_key := k2;
                             voice_id := v |} inp in
         ret Finished) w
      else (Ok Finished, w)
    else
      (Ok Stopped,
       mkWorld (fs w) (log w) (ui w ++ [StError MISSING_SECRETS])).
Proof.
  intros H1 H2 H3. unfold script. rewrite H1, H2, H3. simpl.
  destruct (truthy k1), (truthy k2), (truthy v); try done.
  by destruct (button inp && truthy (strip (text_input inp))).
Qed.

(** C6: when one of the three secrets is missing, the script shows the
    error and stops before anything else: no call is made and no file
    touched.  When the three are there, the script goes on if and only
    if none is empty, and then all it does is [run] on the three values
    read at startup: nothing looks into the secrets again, and every
    request that carries a credential carries the one read at
    startup. *)
Theorem secrets_are_checked_once_at_startup secrets inp (w : World D) :
  (secrets !! py "OPENAI_API_KEY" = None
   \/ secrets !! py "ELEVENLABS_API_KEY" = None
   \/ secrets !! py "VOICE_ID" = None ->
   script be secrets inp w
   = (Ok Stopped,
      mkWorld (fs w) (log w) (ui w ++ [StError MISSING_SECRETS])))
  /\ (forall k1 k2 v,
        secrets !! py "OPENAI_API_KEY" = Some k1 ->
        secrets !! py "ELEVENLABS_API_KEY" = Some k2 ->
        secrets !! py "VOICE_ID" = Some v ->
        script be secrets inp w
        = (if truthy k1 && truthy k2 && truthy v then
             if button inp && truthy (strip (text_input inp)) then
               (let! _ := run be {| openai_api_key := k1;
                                    elevenlabs_api_key := k2;
                                    voice_id := v |} inp in
                ret Finished) w
             else (Ok Finished, w)
           else
             (Ok Stopped,
              mkWorld (fs w) (log w) (ui w ++ [StError MISSING_SECRETS])))
        /\ exists calls,
             log (script be secrets inp w).2 = log w ++ calls
             /\ Forall (uses_config {| openai_api_key := k1;
                                       elevenlabs_api_key := k2;
                                       voice_id := v |}) calls).
Proof.
  split.
  - intros Hmiss. unfold script.
    destruct (secrets !! py "OPENAI_API_KEY") as [k1|] eqn:H1; [|done].
    destruct (secrets !! py "ELEVENLABS_API_KEY") as [k2|] eqn:H2.
    2:{ simpl. by rewrite orb_true_r. }
    destruct (secrets !! py "VOICE_ID") as [v|] eqn:H3.
    2:{ simpl. by rewrite orb_true_r. }
    by destruct Hmiss as [?|[?|?]].
  - intros k1 k2 v H1 H2 H3.
    rewrite (script_with_secrets _ _ _ k1 k2 v) by done.
    split; [done|].
    destruct (truthy k1 && truthy k2 && truthy v).
    2:{ exists []. split; [by rewrite app_nil_r|constructor]. }
    destruct (button inp && truthy (strip (text_input inp))).
    2:{ exists []. split; [by rewrite app_nil_r|constructor]. }
    destruct (keyed_run be {| openai_api_key := k1;
                              elevenlabs_api_key := k2;
                              voice_id := v |} inp w) as (calls & Hlog & Hkeys).
    exists calls. split; [|done].
    unfold bind. by destruct (run be _ inp w) as [[[]|e] w1].
Qed.
End Startup.

Lemma secrets_are_checked_once_at_startup_witness :
  script (demo_backend (Ok []) (Ok [])) ∅ (demo_inputs None) empty_world
  = (Ok Stopped, mkWorld ∅ [] [StError MISSING_SECRETS])
  /\ script (demo_backend (Ok (py "A dog finds a key.")) (Ok [Byte.x01]))
            demo_secrets (demo_inputs None) empty_world
     = (let! _ := run (demo_backend (Ok (py "A dog finds a key.")) (Ok [Byte.x01]))
                      demo_config (demo_inputs None) in
        ret Finished) empty_world
  /\ exists calls,
       log (script (demo_backend (Ok (py "A dog finds a key.")) (Ok [Byte.x01]))
                   demo_secrets (demo_inputs None) empty_world).2
       = log empty_world ++ calls
       /\ Forall (uses_config demo_config) calls.
Proof.
  split.
  - apply (proj1 (secrets_are_checked_once_at_startup
                    (demo_backend (Ok []) (Ok [])) ∅ (demo_inputs None)
                    empty_world)).
    left. reflexivity.
  - apply (proj2 (secrets_are_checked_once_at_startup
                    (demo_backend (Ok (py "A dog finds a key.")) (Ok [Byte.x01]))
                    demo_secrets (demo_inputs None) empty_world)
             (py "sk-demo") (py "el-demo") (py "voice-1"));
      vm_compute; reflexivity.
Defined.

(** * Further properties of the code *)

(** ** [strip] and [split] as line 35 uses them *)

Lemma lstrip_blank s : blank s -> lstrip s = [].
Proof.
  induction 1 as [|c s Hc _ IH]; simpl; [done|]. by rewrite Hc.
Qed.

Lemma lstrip_head s c : head (lstrip s) = Some c -> isspace c = false.
Proof.
  induction s as [|c' s IH]; simpl; [done|].
  destruct (isspace c') eqn:Hc'; [done|]. simpl. by intros [= <-].
Qed.

Lemma lstrip_nil_blank s : lstrip s = [] -> blank s.
Proof.
  induction s as [|c s IH]; simpl; [constructor|].
  destruct (isspace c) eqn:Hc; [|done]. intros Hs.
  constructor; [done|by apply IH].
Qed.

Lemma rstrip_head s c : isspace c = false -> head s = Some c ->
  head (rstrip s) = Some c.
Proof.
  destruct s as [|c' s]; simpl; [done|]. intros Hc [= ->].
  destruct (rstrip s); [by rewrite Hc|done].
Qed.

Lemma rstrip_last s c : last (rstrip s) = Some c -> isspace c = false.
Proof.
  induction s as [|c' s IH]; simpl; [done|].
  destruct (rstrip s) as [|c'' t] eqn:Ht.
  - destruct (isspace c') eqn:Hc'; [done|]. simpl. by intros [= <-].
  - rewrite last_cons_cons. exact IH.
Qed.

Lemma strip_nil_iff s : strip s = [] <-> blank s.
Proof.
  unfold strip. split.
  - intros Hs. apply lstrip_nil_blank.
    destruct (lstrip s) as [|c t] eqn:Ht; [done|].
    assert (isspace c = false) as Hc by (apply (lstrip_head s); by rewrite Ht).
    pose proof (rstrip_head (c :: t) c Hc eq_refl) as Hhead.
    by rewrite Hs in Hhead.
  - intros Hs. by rewrite lstrip_blank.
Qed.

Lemma strip_ends s :
  (forall c, head (strip s) = Some c -> isspace c = false)
  /\ (forall c, last (strip s) = Some c -> isspace c = false).
Proof.
  unfold strip. split; [|apply rstrip_last].
  intros c Hc. destruct (lstrip s) as [|c' t] eqn:Ht; [done|].
  assert (isspace c' = false) as Hc' by (apply (lstrip_head s); by rewrite Ht).
  rewrite (rstrip_head (c' :: t) c' Hc' eq_refl) in Hc. by injection Hc as <-.
Qed.

Lemma split_join sep s : join [sep] (split sep s) = s.
Proof.
  induction s as [|c s IH]; simpl; [done|].
  pose proof (split_length_pos sep s) as Hlen.
  destruct (N.eqb_spec c sep) as [->|Hne].
  - destruct (split sep s) as [|h r]; [simpl in Hlen; lia|].
    simpl in *. by rewrite IH.
  - destruct (split sep s) as [|h r]; [simpl in Hlen; lia|].
    destruct r as [|h' r]; simpl in *; by rewrite <- IH.
Qed.

Lemma split_no_sep sep s piece : piece ∈ split sep s -> sep ∉ piece.
Proof.
  revert piece. induction s as [|c s IH]; simpl; intros piece.
  - intros ->%list_elem_of_singleton. apply not_elem_of_nil.
  - destruct (N.eqb_spec c sep) as [->|Hne].
    + intros [->|Hin]%elem_of_cons; [apply not_elem_of_nil|by apply IH].
    + destruct (split sep s) as [|h r]; simpl.
      * intros ->%list_elem_of_singleton.
        intros [?|?%elem_of_nil]%elem_of_cons; congruence.
      * intros [->|Hin]%elem_of_cons.
        -- intros [?|Hh]%elem_of_cons; [congruence|].
           apply (IH h); [apply elem_of_cons; by left|done].
        -- apply IH. apply elem_of_cons. by right.
Qed.

Lemma split_head sep s c :
  head s = Some c -> c <> sep ->
  exists first rest, split sep s = first :: rest /\ first <> [].
Proof.
  destruct s as [|c' s]; simpl; [done|]. intros [= ->] Hne.
  destruct (N.eqb_spec c sep); [done|].
  destruct (split sep s); by eexists _, _.
Qed.

Lemma split_last sep s c :
  last s = Some c -> c <> sep ->
  exists piece, last (split sep s) = Some piece /\ piece <> [].
Proof.
  induction s as [|c' s IH]; simpl; [done|]. intros Hlast Hne.
  pose proof (split_length_pos sep s) as Hlen.
  destruct s as [|c'' s].
  - simpl in *. injection Hlast as ->.
    destruct (N.eqb_spec c sep); [done|]. by eexists.
  - rewrite last_cons_cons in Hlast.
    destruct (IH Hlast Hne) as (piece & Hpiece & Hne').
    destruct (c' =? sep)%N.
    + exists piece. split; [|done].
      destruct (split sep (c'' :: s)); [done|]. by rewrite last_cons_cons.
    + destruct (split sep (c'' :: s)) as [|h r] eqn:Hsplit; [done|].
      destruct r as [|h' r].
      * simpl in Hpiece. injection Hpiece as <-. by eexists.
      * exists piece. by rewrite last_cons_cons.
Qed.

(** X1: when the segmenter does not fall back, the captions are the lines
    of the stripped completion: joined by newlines they give it back, none
    contains a newline, and the first and the last are not empty, so that
    an empty caption can only sit between two others. *)
Theorem captions_are_the_lines prompt_text content :
  3 <= length (split NL (strip content)) ->
  join [NL] (scenes_of_content prompt_text content) = strip content
  /\ (forall s, s ∈ scenes_of_content prompt_text content -> NL ∉ s)
  /\ (exists first rest,
        scenes_of_content prompt_text content = first :: rest /\ first <> [])
  /\ (exists final,
        last (scenes_of_content prompt_text content) = Some final
        /\ final <> []).
Proof.
  intros Hmany. rewrite scenes_of_content_many by done.
  split; [apply split_join|]. split; [intros s; apply split_no_sep|].
  destruct (strip_ends content) as [Hhead Hlast].
  assert (strip content <> []) as Hne.
  { intros Hnil. rewrite Hnil in Hmany. simpl in Hmany. lia. }
  split.
  - destruct (strip content) as [|c t] eqn:Hs; [done|].
    apply (split_head NL (c :: t) c); [done|].
    intros ->. by specialize (Hhead NL eq_refl).
  - destruct (last (strip content)) as [c|] eqn:Hl.
    2:{ by apply last_None in Hl. }
    apply (split_last NL (strip content) c); [done|].
    intros ->. by specialize (Hlast NL eq_refl).
Qed.

Lemma captions_are_the_lines_witness :
  join [NL] (scenes_of_content story (py " " ++ blank_line_content ++ [NL]))
  = strip (py " " ++ blank_line_content ++ [NL])
  /\ (forall s,
        s ∈ scenes_of_content story (py " " ++ blank_line_content ++ [NL]) ->
        NL ∉ s)
  /\ (exists first rest,
        scenes_of_content story (py " " ++ blank_line_content ++ [NL])
        = first :: rest /\ first <> [])
  /\ (exists final,
        last (scenes_of_content story (py " " ++ blank_line_content ++ [NL]))
        = Some final
        /\ final <> []).
Proof.
  apply (captions_are_the_lines story (py " " ++ blank_line_content ++ [NL])).
  vm_compute. lia.
Defined.

(** ** File names (lines 53, 64, 112, 116) *)

Lemma uint_chars_inj u : forall u', uint_chars u = uint_chars u' -> u = u'.
Proof.
  induction u as [|u IH|u IH|u IH|u IH|u IH|u IH|u IH|u IH|u IH|u IH];
    intros [|u'|u'|u'|u'|u'|u'|u'|u'|u'|u']; simpl; intros [=];
    try done; f_equal; by apply IH.
Qed.

Lemma str_of_nat_inj i j : str_of_nat i = str_of_nat j -> i = j.
Proof.
  unfold str_of_nat. intros Heq%uint_chars_inj.
  rewrite <- (DecimalNat.Unsigned.of_to i), <- (DecimalNat.Unsigned.of_to j).
  by rewrite Heq.
Qed.

Lemma scene_png_inj i j : scene_png i = scene_png j -> i = j.
Proof.
  unfold scene_png. intros Heq%app_inv_head%app_inv_tail.
  by apply str_of_nat_inj.
Qed.

Lemma scene_mp3_inj i j : scene_mp3 i = scene_mp3 j -> i = j.
Proof.
  unfold scene_mp3. intros Heq%app_inv_head%app_inv_tail.
  by apply str_of_nat_inj.
Qed.

Lemma scene_png_mp3 i j : scene_png i <> scene_mp3 j.
Proof.
  unfold scene_png, scene_mp3. intros Heq%app_inv_head.
  apply (f_equal last) in Heq.
  change (py ".png") with ([46; 112; 110] ++ [103])%N in Heq.
  change (py ".mp3") with ([46; 109; 112] ++ [51])%N in Heq.
  rewrite !app_assoc, !last_snoc in Heq. discriminate.
Qed.

(** [os.path.join] puts the same thing in front of every relative
    name. *)
Lemma path_join_relative dir :
  exists front, forall c name,
    c <> SLASH -> path_join dir (c :: name) = front ++ c :: name.
Proof.
  destruct (last dir) as [l|] eqn:Hl.
  - destruct (l =? SLASH)%N eqn:Hslash.
    + exists dir. intros c name Hc. unfold path_join. rewrite Hl, Hslash.
      by destruct (N.eqb_spec c SLASH).
    + exists (dir ++ [SLASH]). intros c name Hc. unfold path_join.
      rewrite Hl, Hslash. destruct (N.eqb_spec c SLASH); [done|].
      by rewrite <- app_assoc.
  - exists []. intros c name Hc. unfold path_join. rewrite Hl.
    by destruct (N.eqb_spec c SLASH).
Qed.

Lemma path_join_inj dir c name c' name' :
  c <> SLASH -> c' <> SLASH ->
  path_join dir (c :: name) = path_join dir (c' :: name') ->
  c :: name = c' :: name'.
Proof.
  intros Hc Hc'. destruct (path_join_relative dir) as [front Hfront].
  rewrite !Hfront by done. apply app_inv_head.
Qed.

(** Inside a plain directory, what is joined to it is under it. *)
Lemma path_join_under dir c name :
  plain_dir dir -> c <> SLASH -> is_under dir (path_join dir (c :: name)).
Proof.
  intros (l & Hl & Hne) Hc. right. unfold path_join. rewrite Hl.
  destruct (N.eqb_spec c SLASH); [done|].
  destruct (N.eqb_spec l SLASH); [done|].
  exists (c :: name). by rewrite <- app_assoc.
Qed.

(** X2: in one scratch directory the files of different scenes have
    different paths, an image never has the path of an audio file, and no
    scene file has the path of the saved music or of the output video. *)
Theorem scene_files_never_collide dir i j :
  i <> j ->
  path_join dir (scene_png i) <> path_join dir (scene_png j)
  /\ path_join dir (scene_mp3 i) <> path_join dir (scene_mp3 j)
  /\ (forall k l, path_join dir (scene_png k) <> path_join dir (scene_mp3 l))
  /\ (forall k,
        path_join dir (scene_png k) <> path_join dir (py "background_music.mp3")
        /\ path_join dir (scene_mp3 k)
           <> path_join dir (py "background_music.mp3")
        /\ path_join dir (scene_png k) <> path_join dir (py "output_video.mp4")
        /\ path_join dir (scene_mp3 k) <> path_join dir (py "output_video.mp4")).
Proof.
  intros Hij.
  assert (forall k, exists t, scene_png k = 115%N :: t) as Hpng
    by (intros k; by eexists).
  assert (forall k, exists t, scene_mp3 k = 115%N :: t) as Hmp3
    by (intros k; by eexists).
  split; [|split; [|split]].
  - destruct (Hpng i) as [t Ht], (Hpng j) as [t' Ht'].
    rewrite Ht, Ht'. intros Heq%path_join_inj; [|done..].
    rewrite <- Ht, <- Ht' in Heq. by apply scene_png_inj in Heq.
  - destruct (Hmp3 i) as [t Ht], (Hmp3 j) as [t' Ht'].
    rewrite Ht, Ht'. intros Heq%path_join_inj; [|done..].
    rewrite <- Ht, <- Ht' in Heq. by apply scene_mp3_inj in Heq.
  - intros k l. destruct (Hpng k) as [t Ht], (Hmp3 l) as [t' Ht'].
    rewrite Ht, Ht'. intros Heq%path_join_inj; [|done..].
    rewrite <- Ht, <- Ht' in Heq. by apply scene_png_mp3 in Heq.
  - intros k. destruct (Hpng k) as [t Ht], (Hmp3 k) as [t' Ht'].
    rewrite Ht, Ht'.
    repeat split; intros Heq%path_join_inj; done.
Qed.

Lemma scene_files_never_collide_witness :
  path_join (py "/tmp/t") (scene_png 1) <> path_join (py "/tmp/t") (scene_png 10)
  /\ path_join (py "/tmp/t") (scene_mp3 1)
     <> path_join (py "/tmp/t") (scene_mp3 10)
  /\ (forall k l,
        path_join (py "/tmp/t") (scene_png k)
        <> path_join (py "/tmp/t") (scene_mp3 l))
  /\ (forall k,
        path_join (py "/tmp/t") (scene_png k)
        <> path_join (py "/tmp/t") (py "background_music.mp3")
        /\ path_join (py "/tmp/t") (scene_mp3 k)
           <> path_join (py "/tmp/t") (py "background_music.mp3")
        /\ path_join (py "/tmp/t") (scene_png k)
           <> path_join (py "/tmp/t") (py "output_video.mp4")
        /\ path_join (py "/tmp/t") (scene_mp3 k)
           <> path_join (py "/tmp/t") (py "output_video.mp4")).
Proof.
  apply (scene_files_never_collide (py "/tmp/t") 1 10). lia.
Defined.

(** ** Which files a stage touches *)

Section Frames.
Context {D : Type}.

Lemma frames_ret {A} P (a : A) : frames P (@ret D A a).
Proof. by intros w r w' [= <- <-]. Qed.

Lemma frames_external {A} P (c : Call D) (f : World D -> Result A) :
  frames P (external c f).
Proof.
  intros w r w'. unfold external. by destruct (f w); intros [= <- <-].
Qed.

Lemma frames_show P x : frames P (@show D x).
Proof. by intros w r w' [= <- <-]. Qed.

Lemma frames_path_exists P path : frames P (@path_exists D path).
Proof. by intros w r w' [= <- <-]. Qed.

Lemma frames_put_file (P : str -> Prop) path data :
  P path -> frames P (@put_file D path data).
Proof.
  intros HP w r w' [= <- <-] p Hp. simpl.
  apply lookup_insert_ne. by intros ->.
Qed.

Lemma frames_bind {A B} P (m : M D A) (k : A -> M D B) :
  frames P m -> (forall a, frames P (k a)) -> frames P (bind m k).
Proof.
  intros Hm Hk w r w'. unfold bind.
  destruct (m w) as [[a|e] w1] eqn:Hrun.
  - intros Hk' p Hp. rewrite (Hk _ _ _ _ Hk' p Hp). by eapply Hm.
  - intros [= <- <-]. by eapply Hm.
Qed.

Lemma frames_weaken {A} (P Q : str -> Prop) (m : M D A) :
  (forall p, P p -> Q p) -> frames P m -> frames Q m.
Proof. intros HPQ Hm w r w' Hrun p Hp. eapply Hm; eauto. Qed.

End Frames.

Create HintDb frame discriminated.
#[export] Hint Resolve frames_ret frames_external frames_show
  frames_path_exists : frame.

Ltac framed :=
  repeat first
    [ progress eauto with frame
    | apply frames_bind; [|intros ?]
    | apply frames_put_file ].

Section TouchedFiles.
Context {D : Type} `{Durations D} (be : Backend D) (cfg : Config).

Lemma frames_write_file (P : str -> Prop) path data :
  P path -> frames P (write_file be path data).
Proof. intros HP. unfold write_file. framed. Qed.

Lemma scene_paths_png dir i n k :
  i <= k < i + n -> path_join dir (scene_png k) ∈ scene_paths dir i n.
Proof.
  intros Hk. apply elem_of_app. left. apply list_elem_of_fmap.
  exists k. split; [done|]. by apply elem_of_seq.
Qed.

Lemma scene_paths_mp3 dir i n k :
  i <= k < i + n -> path_join dir (scene_mp3 k) ∈ scene_paths dir i n.
Proof.
  intros Hk. apply elem_of_app. right. apply list_elem_of_fmap.
  exists k. split; [done|]. by apply elem_of_seq.
Qed.

Lemma scene_paths_inv dir i n p :
  p ∈ scene_paths dir i n ->
  exists k, i <= k < i + n
            /\ (p = path_join dir (scene_png k)
                \/ p = path_join dir (scene_mp3 k)).
Proof.
  intros [Hp|Hp]%elem_of_app;
    apply list_elem_of_fmap in Hp as (k & -> & Hk%elem_of_seq);
    exists k; auto.
Qed.

Lemma frames_assets_from dir scenes_text :
  forall i acc,
    frames (fun p => p ∈ scene_paths dir i (length scenes_text))
           (assets_from be cfg dir i scenes_text acc).
Proof.
  induction scenes_text as [|s rest IH]; intros i [[imgs auds] subs]; simpl.
  - framed.
  - unfold images_generate, requests_get, generate.
    apply frames_bind; [framed|intros ?].
    apply frames_bind; [framed|intros ?].
    apply frames_bind.
    { apply frames_write_file. apply scene_paths_png. lia. }
    intros ?. apply frames_bind; [framed|intros ?].
    apply frames_bind.
    { apply frames_write_file. apply scene_paths_mp3. lia. }
    intros ?. eapply frames_weaken; [|apply IH].
    intros p (k & Hk & Hp)%scene_paths_inv.
    destruct Hp as [->| ->];
      [apply scene_paths_png|apply scene_paths_mp3]; lia.
Qed.

End TouchedFiles.

(** ** The Asset Generator: its requests and its files *)

Lemma png_path_inj dir i j :
  path_join dir (scene_png i) = path_join dir (scene_png j) -> i = j.
Proof.
  change (scene_png i) with (115%N :: (py "cene_" ++ str_of_nat i ++ py ".png")).
  change (scene_png j) with (115%N :: (py "cene_" ++ str_of_nat j ++ py ".png")).
  intros Heq%path_join_inj; [|done..]. by apply (scene_png_inj i j).
Qed.

Lemma mp3_path_inj dir i j :
  path_join dir (scene_mp3 i) = path_join dir (scene_mp3 j) -> i = j.
Proof.
  change (scene_mp3 i) with (115%N :: (py "cene_" ++ str_of_nat i ++ py ".mp3")).
  change (scene_mp3 j) with (115%N :: (py "cene_" ++ str_of_nat j ++ py ".mp3")).
  intros Heq%path_join_inj; [|done..]. by apply (scene_mp3_inj i j).
Qed.

Lemma png_mp3_path_ne dir i j :
  path_join dir (scene_png i) <> path_join dir (scene_mp3 j).
Proof.
  change (scene_png i) with (115%N :: (py "cene_" ++ str_of_nat i ++ py ".png")).
  change (scene_mp3 j) with (115%N :: (py "cene_" ++ str_of_nat j ++ py ".mp3")).
  intros Heq%path_join_inj; [|done..]. by apply (scene_png_mp3 i j).
Qed.

Section GeneratorFiles.
Context {D : Type} `{Durations D} (be : Backend D) (cfg : Config).

Lemma later_scenes_spare_png dir i n :
  path_join dir (scene_png i) ∉ scene_paths dir (S i) n.
Proof.
  intros (k & Hk & [Hp|Hp])%scene_paths_inv.
  - apply png_path_inj in Hp. lia.
  - by apply png_mp3_path_ne in Hp.
Qed.

Lemma later_scenes_spare_mp3 dir i n :
  path_join dir (scene_mp3 i) ∉ scene_paths dir (S i) n.
Proof.
  intros (k & Hk & [Hp|Hp])%scene_paths_inv.
  - symmetry in Hp. by apply png_mp3_path_ne in Hp.
  - apply mp3_path_inj in Hp. lia.
Qed.

(** A run of the loop that goes through: five calls per scene, in the
    order of the scenes, and every file it wrote still holds what was
    written. *)
Lemma assets_from_log dir scenes_text :
  forall i acc (w : World D) r w',
    assets_from be cfg dir i scenes_text acc w = (Ok r, w') ->
    exists calls,
      log w' = log w ++ calls
      /\ length calls = 5 * length scenes_text
      /\ image_prompts calls = scenes_text
      /\ speech_texts calls = scenes_text
      /\ (forall path data o,
            (WriteFile path data, o) ∈ calls ->
            fs w' !! path = Some (File data))
      /\ (forall p,
            p ∈ scene_paths dir i (length scenes_text) ->
            exists data, (WriteFile p data, Returned) ∈ calls).
Proof.
  induction scenes_text as [|s rest IH];
    intros i [[imgs auds] subs] w r w' Hrun.
  - simpl in Hrun. injection Hrun as <- <-. exists [].
    rewrite app_nil_r. repeat split; try done.
    + intros path data o Hin. by apply elem_of_nil in Hin.
    + intros p Hin. by apply elem_of_nil in Hin.
  - simpl in Hrun.
    step_ok Hrun. ext_ok Hcall. destruct Hcall as [_ ->].
    step_ok Hrun. ext_ok Hcall. destruct Hcall as [_ ->].
    step_ok Hrun. apply write_file_ok in Hcall as [_ ->].
    step_ok Hrun. ext_ok Hcall. destruct Hcall as [_ ->].
    step_ok Hrun. apply write_file_ok in Hcall as [_ ->].
    pose proof (frames_assets_from be cfg dir rest _ _ _ _ _ Hrun) as Hframe.
    apply IH in Hrun as (calls & Hlog & Hlen & Himg & Htts & Hwrote & Hall).
    simpl in Hlog, Hframe.
    set (img_path := path_join dir (scene_png i)) in *.
    set (audio_path := path_join dir (scene_mp3 i)) in *.
    assert (fs w' !! img_path = Some (File a0)) as Himg_file.
    { rewrite Hframe by apply later_scenes_spare_png.
      rewrite lookup_insert_ne by (symmetry; apply png_mp3_path_ne).
      apply lookup_insert_eq. }
    assert (fs w' !! audio_path = Some (File a2)) as Haudio_file.
    { rewrite Hframe by apply later_scenes_spare_mp3.
      apply lookup_insert_eq. }
    eexists ([_; _; _; _; _] ++ calls).
    split; [rewrite Hlog; by rewrite <- !app_assoc|].
    split; [rewrite length_app, Hlen; simpl; lia|].
    split; [unfold image_prompts in *; rewrite omap_app; simpl;
            by rewrite Himg|].
    split; [unfold speech_texts in *; rewrite omap_app; simpl;
            by rewrite Htts|].
    split.
    + intros path data o [Hin|Hin]%elem_of_app; [|by eapply Hwrote].
      rewrite !elem_of_cons, elem_of_nil in Hin.
      destruct Hin as [Heq|[Heq|[Heq|[Heq|[Heq|[]]]]]]; try discriminate;
        by injection Heq as -> -> ->.
    + intros p (k & Hk & Hp)%scene_paths_inv.
      destruct (decide (k = i)) as [->|Hne].
      * destruct Hp as [->| ->]; [exists a0|exists a2];
          apply elem_of_app; left; rewrite !elem_of_cons; tauto.
      * destruct (Hall p) as [data Hdata].
        { simpl in Hk. destruct Hp as [->| ->];
            [apply scene_paths_png|apply scene_paths_mp3]; lia. }
        exists data. apply elem_of_app. by right.
Qed.

(** X3: a run of the generator that goes through has made five calls
    per scene and nothing else; the prompts of its image requests, in
    the order they were made, are the captions, and so are the texts of
    its speech requests: one request of each kind per scene, scene after
    scene. *)
Theorem generator_asks_once_per_scene scenes_text dir (w : World D) r w' :
  generate_assets be cfg scenes_text dir w = (Ok r, w') ->
  exists calls,
    log w' = log w ++ calls
    /\ length calls = 5 * length scenes_text
    /\ image_prompts calls = scenes_text
    /\ speech_texts calls = scenes_text.
Proof.
  unfold generate_assets. intros Hrun.
  apply assets_from_log in Hrun
    as (calls & Hlog & Hlen & Himg & Htts & _). by exists calls.
Qed.

(** X4: after a run of the generator that goes through, every path it
    returns holds a file, every file it wrote still holds the bytes
    written to it (no scene overwrites another), and no other file has
    changed. *)
Theorem generator_files_are_in_place scenes_text dir (w : World D)
    image_files audio_files subtitles w' :
  generate_assets be cfg scenes_text dir w
  = (Ok (image_files, audio_files, subtitles), w') ->
  (forall p, p ∈ image_files ++ audio_files ->
     exists data, fs w' !! p = Some (File data))
  /\ (exists calls,
        log w' = log w ++ calls
        /\ forall path data o,
             (WriteFile path data, o) ∈ calls ->
             fs w' !! path = Some (File data))
  /\ (forall p, p ∉ image_files ++ audio_files -> fs w' !! p = fs w !! p).
Proof.
  unfold generate_assets. intros Hrun.
  pose proof (frames_assets_from be cfg dir scenes_text _ _ _ _ _ Hrun)
    as Hframe.
  pose proof (assets_from_ok be cfg _ _ _ _ _ _ _ _ _ Hrun) as (Hr & _).
  injection Hr as -> -> ->. simpl.
  apply assets_from_log in Hrun
    as (calls & Hlog & _ & _ & _ & Hwrote & Hall).
  split; [|split].
  - intros p Hp. destruct (Hall p Hp) as [data Hdata].
    exists data. by eapply Hwrote.
  - by exists calls.
  - exact Hframe.
Qed.
End GeneratorFiles.

Lemma generator_asks_once_per_scene_witness :
  exists r w',
    generate_assets (demo_backend (Ok []) (Ok [Byte.x01])) demo_config
                    [py "A"; []; py "B"] (py "/tmp/t") empty_world
    = (Ok r, w')
    /\ exists calls,
         log w' = log empty_world ++ calls
         /\ length calls = 5 * 3
         /\ image_prompts calls = [py "A"; []; py "B"]
         /\ speech_texts calls = [py "A"; []; py "B"].
Proof.
  eexists _, _. split; [vm_compute; reflexivity|].
  eapply (generator_asks_once_per_scene
            (demo_backend (Ok []) (Ok [Byte.x01])) demo_config
            [py "A"; []; py "B"] (py "/tmp/t") empty_world).
  vm_compute. reflexivity.
Defined.

Lemma generator_files_are_in_place_witness :
  exists image_files audio_files subtitles w',
    generate_assets (demo_backend (Ok []) (Ok [Byte.x01])) demo_config
                    [py "A"; py "B"] (py "/tmp/t") empty_world
    = (Ok (image_files, audio_files, subtitles), w')
    /\ (forall p, p ∈ image_files ++ audio_files ->
          exists data, fs w' !! p = Some (File data))
    /\ (exists calls,
          log w' = log empty_world ++ calls
          /\ forall path data o,
               (WriteFile path data, o) ∈ calls ->
               fs w' !! path = Some (File data))
    /\ (forall p, p ∉ image_files ++ audio_files ->
          fs w' !! p = fs empty_world !! p).
Proof.
  eexists _, _, _, _. split; [vm_compute; reflexivity|].
  eapply (generator_files_are_in_place
            (demo_backend (Ok []) (Ok [Byte.x01])) demo_config
            [py "A"; py "B"] (py "/tmp/t") empty_world).
  vm_compute. reflexivity.
Defined.

(** ** The whole of [generate_scene_images_and_audio] *)

Section Generate.
Context {D : Type} `{Durations D} (be : Backend D) (cfg : Config).

Lemma segment_scenes_ok prompt_text (w : World D) scenes w' :
  segment_scenes be cfg prompt_text w = (Ok scenes, w') ->
  exists content,
    openai_chat be (log w) (openai_api_key cfg) (py "gpt-4o-mini")
                (scene_messages prompt_text) = Ok content
    /\ scenes = scenes_of_content prompt_text content
    /\ w' = logged (ChatCompletionsCreate (openai_api_key cfg)
                      (py "gpt-4o-mini") (scene_messages prompt_text))
                   Returned w.
Proof.
  unfold segment_scenes. intros Hrun. step_ok Hrun.
  ext_ok Hcall. destruct Hcall as [Hans ->].
  injection Hrun as <- <-. by exists a.
Qed.

Lemma generate_ok prompt_text dir (w : World D) r w' :
  generate_scene_images_and_audio be cfg prompt_text dir w = (Ok r, w') ->
  exists content w1,
    openai_chat be (log w) (openai_api_key cfg) (py "gpt-4o-mini")
                (scene_messages prompt_text) = Ok content
    /\ fs w1 = fs w
    /\ generate_assets be cfg (scenes_of_content prompt_text content) dir w1
       = (Ok r, w').
Proof.
  unfold generate_scene_images_and_audio. intros Hrun. step_ok Hrun.
  apply segment_scenes_ok in Hcall as (content & Hchat & -> & ->).
  by exists content, (logged (ChatCompletionsCreate (openai_api_key cfg)
                                (py "gpt-4o-mini")
                                (scene_messages prompt_text)) Returned w).
Qed.

(** X5: what [generate_scene_images_and_audio] returns always fits
    [create_video]: three lists of one length, which is 1 or at least 3
    and never 0 or 2; the subtitles are the story alone when there is
    one, the lines of the stripped completion otherwise. *)
Theorem generated_lists_fit_the_assembler prompt_text dir (w : World D)
    image_files audio_files subtitles w' :
  generate_scene_images_and_audio be cfg prompt_text dir w
  = (Ok (image_files, audio_files, subtitles), w') ->
  length image_files = length subtitles
  /\ length audio_files = length subtitles
  /\ (length subtitles = 1 /\ subtitles = [prompt_text]
      \/ 3 <= length subtitles
         /\ exists content,
              openai_chat be (log w) (openai_api_key cfg) (py "gpt-4o-mini")
                          (scene_messages prompt_text) = Ok content
              /\ subtitles = split NL (strip content)).
Proof.
  intros Hrun.
  apply generate_ok in Hrun as (content & w1 & Hchat & _ & Hrun).
  unfold generate_assets in Hrun.
  apply assets_from_ok in Hrun as (Hr & _). injection Hr as -> -> ->.
  simpl. rewrite !length_fmap, !length_seq.
  split; [done|]. split; [done|].
  unfold scenes_of_content.
  destruct (Nat.ltb_spec (length (split NL (strip content))) 3).
  - by left.
  - right. split; [done|]. by exists content.
Qed.
End Generate.

Lemma generated_lists_fit_the_assembler_witness :
  exists image_files audio_files subtitles w',
    generate_scene_images_and_audio
      (demo_backend (Ok (py "A dog." ++ [NL] ++ py "A key.")) (Ok [Byte.x01]))
      demo_config story (py "/tmp/t") empty_world
    = (Ok (image_files, audio_files, subtitles), w')
    /\ subtitles = [story]
    /\ length image_files = length subtitles
    /\ length audio_files = length subtitles
    /\ (length subtitles = 1 /\ subtitles = [story]
        \/ 3 <= length subtitles
           /\ exists content,
                openai_chat
                  (demo_backend (Ok (py "A dog." ++ [NL] ++ py "A key."))
                                (Ok [Byte.x01]))
                  (log empty_world) (openai_api_key demo_config)
                  (py "gpt-4o-mini") (scene_messages story) = Ok content
                /\ subtitles = split NL (strip content)).
Proof.
  eexists _, _, _, _. split; [vm_compute; reflexivity|].
  split; [reflexivity|].
  eapply (generated_lists_fit_the_assembler
            (demo_backend (Ok (py "A dog." ++ [NL] ++ py "A key."))
                          (Ok [Byte.x01]))
            demo_config story (py "/tmp/t") empty_world).
  vm_compute. reflexivity.
Defined.

(** ** The guard of line 104 *)

Section Guard.
Context {D : Type} `{Durations D} (be : Backend D).

(** X6: with the three secrets in place, the script starts a run exactly
    when the button was pressed and the story has a character that is
    not whitespace; otherwise it makes no call, touches no file and
    shows nothing. *)
Theorem blank_story_starts_nothing secrets inp (w : World D) k1 k2 v :
  secrets !! py "OPENAI_API_KEY" = Some k1 ->
  secrets !! py "ELEVENLABS_API_KEY" = Some k2 ->
  secrets !! py "VOICE_ID" = Some v ->
  k1 <> [] -> k2 <> [] -> v <> [] ->
  (button inp = false \/ blank (text_input inp) ->
   script be secrets inp w = (Ok Finished, w))
  /\ (button inp = true -> ~ blank (text_input inp) ->
      script be secrets inp w
      = (let! _ := run be {| openai_api_key := k1;
                             elevenlabs_api_key := k2;
                             voice_id := v |} inp in
         ret Finished) w).
Proof.
  intros H1 H2 H3 Hk1 Hk2 Hv.
  rewrite (script_with_secrets be _ _ _ k1 k2 v) by done.
  destruct k1, k2, v; try done. simpl truthy. simpl andb. cbv iota.
  split.
  - intros [->|Hblank]; [done|].
    apply strip_nil_iff in Hblank. rewrite Hblank.
    by rewrite andb_false_r.
  - intros -> Hblank. simpl.
    destruct (strip (text_input inp)) as [|c t] eqn:Hs; [|done].
    by apply strip_nil_iff in Hs.
Qed.
End Guard.

Lemma blank_story_starts_nothing_witness :
  script (demo_backend (Ok []) (Ok [])) demo_secrets
         {| button := true; text_input := py "  " ++ [NL; 9%N];
            music_upload := None; temp_dir := py "/tmp/t" |} empty_world
  = (Ok Finished, empty_world).
Proof.
  apply (proj1 (blank_story_starts_nothing
                  (demo_backend (Ok []) (Ok [])) demo_secrets
                  {| button := true; text_input := py "  " ++ [NL; 9%N];
                     music_upload := None; temp_dir := py "/tmp/t" |}
                  empty_world (py "sk-demo") (py "el-demo") (py "voice-1")
                  eq_refl eq_refl eq_refl
                  ltac:(discriminate) ltac:(discriminate) ltac:(discriminate))).
  right. repeat constructor.
Defined.

(** ** The scratch directory (lines 105-125) *)

Section Scratch.
Context {D : Type} `{Durations D} (be : Backend D) (cfg : Config).

Lemma scene_paths_under dir i n p :
  plain_dir dir -> p ∈ scene_paths dir i n -> is_under dir p.
Proof.
  intros Hdir (k & _ & [->| ->])%scene_paths_inv.
  - change (scene_png k)
      with (115%N :: (py "cene_" ++ str_of_nat k ++ py ".png")).
    by apply path_join_under.
  - change (scene_mp3 k)
      with (115%N :: (py "cene_" ++ str_of_nat k ++ py ".mp3")).
    by apply path_join_under.
Qed.

Lemma scratch_write_file dir path data :
  is_under dir path ->
  appends (writes_under dir) (write_file be path data).
Proof.
  intros Hpath. unfold write_file.
  apply appends_bind; [|intros ?; stage].
  by apply appends_external.
Qed.

Lemma scratch_assets_from dir scenes_text :
  plain_dir dir ->
  forall i acc,
    appends (writes_under dir) (assets_from be cfg dir i scenes_text acc).
Proof.
  intros Hdir.
  induction scenes_text as [|s rest IH]; intros i [[imgs auds] subs]; simpl.
  - stage.
  - unfold images_generate, requests_get, generate.
    apply appends_bind; [stage|intros ?].
    apply appends_bind; [stage|intros ?].
    apply appends_bind.
    { apply scratch_write_file. apply scene_paths_under with i 1; [done|].
      apply scene_paths_png. lia. }
    intros ?. apply appends_bind; [stage|intros ?].
    apply appends_bind.
    { apply scratch_write_file. apply scene_paths_under with i 1; [done|].
      apply scene_paths_mp3. lia. }
    intros ?. apply IH.
Qed.

Lemma scratch_clips_from dir scenes :
  forall clips, appends (writes_under dir) (clips_from be scenes clips).
Proof.
  induction scenes as [|[[img aud] subtitle] rest IH]; intros clips; simpl.
  - stage.
  - unfold AudioFileClip, ImageClip, TextClip. stage.
Qed.

Lemma scratch_add_music dir final_clip music_path :
  appends (writes_under dir) (add_music be final_clip music_path).
Proof.
  unfold add_music, AudioFileClip, CompositeAudioClip, attribute_loop.
  apply appends_bind.
  - destruct music_path as [p|]; [destruct (truthy p)|]; stage.
    by apply appends_silent.
  - intros [|]; destruct music_path; stage.
Qed.

Lemma scratch_write_videofile dir clip path fps codec audio_codec :
  is_under dir path ->
  appends (writes_under dir)
          (write_videofile be clip path fps codec audio_codec).
Proof.
  intros Hpath w. unfold write_videofile.
  destruct (encode be (log w) clip fps codec audio_codec) as [data|e]; simpl;
    eexists [_]; (split; [done|]);
    (constructor; [exact Hpath|constructor]).
Qed.

Lemma scratch_pipeline inp :
  plain_dir (temp_dir inp) ->
  appends (writes_under (temp_dir inp)) (pipeline be cfg inp).
Proof.
  intros Hdir.
  unfold pipeline, generate_scene_images_and_audio, generate_assets,
    segment_scenes, chat_completions_create.
  pose proof (scratch_assets_from (temp_dir inp)) as Hassets.
  apply appends_bind; [stage|].
  intros [[image_files audio_files] subtitles].
  apply appends_bind.
  { unfold save_music. destruct (music_upload inp); [|stage].
    apply appends_bind; [|intros ?; stage].
    apply scratch_write_file. by apply path_join_under. }
  intros music_path. apply appends_bind; [stage|intros ?].
  apply appends_bind.
  { unfold create_video, assemble, concatenate_videoclips.
    pose proof (scratch_clips_from (temp_dir inp)).
    pose proof (scratch_add_music (temp_dir inp)).
    apply appends_bind; [stage|intros ?].
    apply appends_bind; [|intros ?; stage].
    apply scratch_write_videofile. by apply path_join_under. }
  intros ?. unfold st_video. stage.
Qed.

(** X7: a run writes nowhere but in its scratch directory: every file
    the program opens for writing and the output of every
    [write_videofile] it calls is at a path under the directory; and
    however the run ends, nothing is left at or under that directory. *)
Theorem run_writes_only_in_scratch inp (w : World D) r w' :
  plain_dir (temp_dir inp) ->
  run be cfg inp w = (r, w') ->
  (exists calls,
     log w' = log w ++ calls
     /\ Forall (writes_under (temp_dir inp)) calls)
  /\ (forall p, is_under (temp_dir inp) p -> fs w' !! p = None).
Proof.
  intros Hdir. unfold run, with_temporary_directory.
  match goal with
  | |- context [bind ?m ?k ?x] =>
      destruct (bind m k x) as [r1 w1] eqn:Hbody
  end.
  intros [= <- <-]. simpl. split.
  - unfold bind, show, try_except in Hbody. simpl in Hbody.
    match type of Hbody with
    | context [pipeline be cfg inp ?x] =>
        destruct (scratch_pipeline inp Hdir x) as (calls & Hlog & Hcalls);
        destruct (pipeline be cfg inp x) as [[[]|e] w2]
    end; injection Hbody as <- <-; by exists calls.
  - intros p Hp. apply map_lookup_filter_None. right. intros x _ Hnot.
    by apply Hnot.
Qed.
End Scratch.

Lemma run_writes_only_in_scratch_witness :
  exists r w',
    run (demo_backend (Ok blank_line_content) (Ok [Byte.x01])) demo_config
        (demo_inputs None) studio = (r, w')
    /\ fs w' = fs studio
    /\ (exists calls,
          log w' = log studio ++ calls
          /\ Forall (writes_under (py "/tmp/t")) calls)
    /\ (forall p, is_under (py "/tmp/t") p -> fs w' !! p = None).
Proof.
  eexists _, _. split; [vm_compute; reflexivity|].
  split; [vm_compute; reflexivity|].
  eapply (run_writes_only_in_scratch
            (demo_backend (Ok blank_line_content) (Ok [Byte.x01])) demo_config
            (demo_inputs None) studio).
  - exists 116%N. split; [reflexivity|discriminate].
  - vm_compute. reflexivity.
Defined.

(** ** The body of [try] (lines 108-122), end to end *)

Section EndToEnd.
Context {D : Type} `{Durations D} (be : Backend D) (cfg : Config).

(** A run of the body that goes through, stage by stage. *)
Lemma pipeline_ok inp (w : World D) u w' :
  pipeline be cfg inp w = (Ok u, w') ->
  exists image_files audio_files subtitles w1 music_path w2 w3 data,
    generate_scene_images_and_audio be cfg (text_input inp) (temp_dir inp) w
    = (Ok (image_files, audio_files, subtitles), w1)
    /\ save_music be inp w1 = (Ok music_path, w2)
    /\ create_video be image_files audio_files subtitles
         (path_join (temp_dir inp) (py "output_video.mp4")) music_path
         (mkWorld (fs w2) (log w2) (ui w2 ++ [StInfo (py "Creating video...")]))
       = (Ok tt, w3)
    /\ fs w3 !! path_join (temp_dir inp) (py "output_video.mp4")
       = Some (File data)
    /\ w' = mkWorld (fs w3)
              (log w3 ++ [(ReadVideo (path_join (temp_dir inp)
                                        (py "output_video.mp4")), Returned)])
              (ui w3 ++ [StVideo data;
                         StSuccess (py "Video generated successfully!")]).
Proof.
  unfold pipeline. intros Hrun.
  apply bind_ok in Hrun as ([[image_files audio_files] subtitles] & w1 & Hgen & Hrun).
  apply bind_ok in Hrun as (music_path & w2 & Hmusic & Hrun).
  apply bind_ok in Hrun as ([] & w2' & Hshow & Hrun).
  injection Hshow as <-.
  apply bind_ok in Hrun as ([] & w3 & Hvideo & Hrun).
  apply bind_ok in Hrun as ([] & w4 & Hread & Hrun).
  unfold st_video in Hread.
  apply bind_ok in Hread as (data & w5 & Hread & Hshow).
  apply external_ok in Hread as [Hread ->].
  injection Hshow as <-. injection Hrun as <- <-.
  exists image_files, audio_files, subtitles, w1, music_path, w2, w3, data.
  split; [done|]. split; [done|]. split; [done|]. split.
  - unfold read_file in Hread.
    destruct (fs w3 !! _) as [[data'|]|]; try discriminate.
    by injection Hread as ->.
  - simpl. by rewrite <- app_assoc.
Qed.

Lemma save_music_ok inp (w : World D) music_path w' :
  save_music be inp w = (Ok music_path, w') ->
  match music_upload inp with
  | Some data =>
      music_path = Some (path_join (temp_dir inp) (py "background_music.mp3"))
      /\ fs w' = <[path_join (temp_dir inp) (py "background_music.mp3")
                   := File data]> (fs w)
  | None => music_path = None /\ w' = w
  end.
Proof.
  unfold save_music. destruct (music_upload inp) as [data|].
  - intros Hrun. step_ok Hrun. apply write_file_ok in Hcall as [_ ->].
    by injection Hrun as <- <-.
  - by intros [= <- <-].
Qed.

(** X9: when the body of [try] returns, the video shown to the user is
    byte for byte what the encoder returned for the clip that was handed
    to [write_videofile], read back from the output path. *)
Theorem shown_video_is_the_encoded_one inp (w : World D) w' :
  pipeline be cfg inp w = (Ok tt, w') ->
  exists final calls data,
    (WriteVideofile final (path_join (temp_dir inp) (py "output_video.mp4"))
                    24 (py "libx264") (py "aac"), Returned) ∈ log w'
    /\ encode be calls final 24 (py "libx264") (py "aac") = Ok data
    /\ calls `prefix_of` log w'
    /\ ui w' = ui w ++ [StInfo (py "Creating video..."); StVideo data;
                        StSuccess (py "Video generated successfully!")].
Proof.
  intros Hrun.
  apply pipeline_ok in Hrun
    as (imgs & auds & subs & w1 & mp & w2 & w3 & shown & Hgen & Hmusic
        & Hvideo & Hread & ->).
  apply quiet_generate in Hgen. apply quiet_save_music in Hmusic.
  pose proof (quiet_create_video _ _ _ _ _ _ _ _ _ Hvideo) as Hui.
  apply create_video_ok in Hvideo as (final & w4 & data & _ & Henc & ->).
  simpl in *. rewrite lookup_insert_eq in Hread. injection Hread as <-.
  exists final, (log w4), data. split; [|split; [done|split]].
  - rewrite !elem_of_app, !list_elem_of_singleton. tauto.
  - rewrite <- app_assoc. by apply prefix_app_r.
  - rewrite Hui, Hmusic, Hgen. by rewrite <- app_assoc.
Qed.

(** With an upload, the body of [try] never returns: the saved file
    exists when the assembler looks for it. *)
Lemma pipeline_with_upload_raises inp (w : World D) r w' upload :
  music_upload inp = Some upload ->
  pipeline be cfg inp w = (r, w') ->
  exists e, r = Raise e.
Proof.
  intros Hupload Hrun. destruct r as [[]|e]; [|by exists e].
  apply pipeline_ok in Hrun
    as (imgs & auds & subs & w1 & mp & w2 & w3 & shown & _ & Hmusic
        & Hvideo & _ & _).
  apply save_music_ok in Hmusic. rewrite Hupload in Hmusic.
  destruct Hmusic as [-> Hfs].
  apply create_video_ok in Hvideo as (final & w4 & data & Hasm & _ & _).
  apply assemble_ok in Hasm as (params & w5 & _ & _ & Hfs5 & _ & Hadd).
  simpl in Hfs5.
  apply add_music_ok in Hadd as (_ & _ & [Hnil|Hnone]).
  - exfalso. revert Hnil. unfold path_join.
    destruct (last (temp_dir inp)) as [l|]; [destruct (l =? SLASH)%N|];
      simpl; try done; by destruct (temp_dir inp).
  - rewrite Hfs5, Hfs, lookup_insert_eq in Hnone. discriminate.
Qed.

(** X10: a run with an uploaded music file never shows a video: some
    call of the run raises, it is the last call of the run, and the run
    shows, after its banners, the error message made of that exception. *)
Theorem uploaded_music_ends_in_an_error inp (w : World D) r w' upload :
  music_upload inp = Some upload ->
  run be cfg inp w = (r, w') ->
  exists e before c infos,
    log w' = log w ++ before ++ [(c, Raised e)]
    /\ all_returned before
    /\ ui w' = ui w ++ infos ++ [StError (py "Error: " ++ exn_str e)]
    /\ Forall is_info infos.
Proof.
  intros Hupload.
  unfold run, with_temporary_directory, bind, show, try_except.
  simpl.
  match goal with
  | |- context [pipeline be cfg inp ?x] => set (w0 := x)
  end.
  pose proof (traced_pipeline be cfg inp w0) as Htr.
  pose proof (pipeline_ui be cfg inp w0) as Hui.
  pose proof (pipeline_with_upload_raises inp w0) as Hraise.
  destruct (pipeline be cfg inp w0) as [r0 w1].
  destruct (Hraise _ _ _ Hupload eq_refl) as [e ->].
  intros [= <- <-]. specialize (Hui _ _ eq_refl). simpl in *.
  destruct Htr as (before & c & Hlog & Hret).
  destruct Hui as (infos & Hui & Hinfos).
  exists e, before, c,
    (StInfo (py "Generating scenes, images, and audio...") :: infos).
  split; [done|]. split; [done|]. split; [|by constructor].
  rewrite Hui. by rewrite <- !app_assoc.
Qed.

Lemma zip3_images {A B C} (la : list A) (lb : list B) (lc : list C) :
  length la = length lb -> length lb = length lc ->
  (fun s => s.1.1) <$> zip3 la lb lc = la.
Proof.
  revert lb lc. induction la as [|a la IH]; intros [|b lb] [|c lc];
    simpl; try done.
  intros [=] [=]. f_equal. by apply IH.
Qed.

Lemma zip3_subtitles {A B C} (la : list A) (lb : list B) (lc : list C) :
  length la = length lb -> length lb = length lc ->
  (fun s => s.2) <$> zip3 la lb lc = lc.
Proof.
  revert lb lc. induction la as [|a la IH]; intros [|b lb] [|c lc];
    simpl; try done.
  intros [=] [=]. f_equal. by apply IH.
Qed.

Lemma clips_captions scenes :
  forall params : list (D * ((N * N) * (N * N))),
    length scenes = length params ->
    omap caption_of (zip_with clip_of scenes params)
    = (fun s => s.2) <$> scenes.
Proof.
  induction scenes as [|[[img aud] subtitle] scenes IH];
    intros [|p params]; simpl; try done.
  intros [=]. f_equal. by apply IH.
Qed.

Lemma clips_stills scenes :
  forall params : list (D * ((N * N) * (N * N))),
    length scenes = length params ->
    omap still_of (zip_with clip_of scenes params)
    = (fun s => s.1.1) <$> scenes.
Proof.
  induction scenes as [|[[img aud] subtitle] scenes IH];
    intros [|p params]; simpl; try done.
  intros [=]. f_equal. by apply IH.
Qed.

Lemma add_music_sub_clips final_clip music_path (w : World D) final w' :
  add_music be final_clip music_path w = (Ok final, w') ->
  sub_clips final = sub_clips final_clip.
Proof.
  intros [Hpic _]%add_music_keeps. unfold sub_clips. by rewrite Hpic.
Qed.

(** X11: when the body of [try] returns, the clip handed to the encoder
    has one sub-clip per caption of the segmenter, in the segmenter's
    order: the i-th shows the caption i over the image [scene_{i}.png]
    of the scratch directory. *)
Theorem video_shows_the_scenes_in_order inp (w : World D) w' :
  pipeline be cfg inp w = (Ok tt, w') ->
  exists content final,
    openai_chat be (log w) (openai_api_key cfg) (py "gpt-4o-mini")
                (scene_messages (text_input inp)) = Ok content
    /\ (WriteVideofile final
          (path_join (temp_dir inp) (py "output_video.mp4"))
          24 (py "libx264") (py "aac"), Returned) ∈ log w'
    /\ length (sub_clips final)
       = length (scenes_of_content (text_input inp) content)
    /\ omap caption_of (sub_clips final)
       = scenes_of_content (text_input inp) content
    /\ omap still_of (sub_clips final)
       = (fun i => path_join (temp_dir inp) (scene_png i))
           <$> seq 0 (length (scenes_of_content (text_input inp) content)).
Proof.
  intros Hrun.
  apply pipeline_ok in Hrun
    as (imgs & auds & subs & w1 & mp & w2 & w3 & shown & Hgen & _
        & Hvideo & _ & ->).
  apply generate_ok in Hgen as (content & w0 & Hchat & _ & Hgen).
  unfold generate_assets in Hgen.
  apply assets_from_ok in Hgen as (Hr & _). injection Hr as -> -> ->.
  cbn [app] in Hvideo.
  set (scenes := scenes_of_content (text_input inp) content) in *.
  set (imgs := (fun k => path_join (temp_dir inp) (scene_png k))
                 <$> seq 0 (length scenes)) in *.
  set (auds := (fun k => path_join (temp_dir inp) (scene_mp3 k))
                 <$> seq 0 (length scenes)) in *.
  assert (length imgs = length auds) as Hlen1
    by (unfold imgs, auds; by rewrite !length_fmap).
  assert (length auds = length scenes) as Hlen2
    by (unfold auds; by rewrite length_fmap, length_seq).
  apply create_video_ok in Hvideo as (final & w4 & data & Hasm & _ & ->).
  apply assemble_ok in Hasm as (params & w5 & Hbuilt & _ & _ & _ & Hadd).
  apply add_music_sub_clips in Hadd.
  pose proof (built_from_length _ _ _ _ Hbuilt) as Hlen.
  exists content, final. split; [done|]. split.
  { simpl. rewrite !elem_of_app, !list_elem_of_singleton. tauto. }
  rewrite Hadd. unfold sub_clips, concatenated. cbn [picture].
  split; [|split].
  - rewrite length_zip_with, <- Hlen, Nat.min_id, zip3_length by done.
    by rewrite length_fmap, length_seq.
  - rewrite clips_captions by done. by apply zip3_subtitles.
  - rewrite clips_stills by done. by rewrite zip3_images.
Qed.
End EndToEnd.

Lemma shown_video_is_the_encoded_one_witness :
  exists w',
    pipeline (demo_backend (Ok blank_line_content) (Ok [Byte.x01])) demo_config
             (demo_inputs None) empty_world = (Ok tt, w')
    /\ exists final calls data,
         (WriteVideofile final (path_join (py "/tmp/t") (py "output_video.mp4"))
                         24 (py "libx264") (py "aac"), Returned) ∈ log w'
         /\ encode (demo_backend (Ok blank_line_content) (Ok [Byte.x01]))
                   calls final 24 (py "libx264") (py "aac") = Ok data
         /\ calls `prefix_of` log w'
         /\ ui w' = ui empty_world
                      ++ [StInfo (py "Creating video..."); StVideo data;
                          StSuccess (py "Video generated successfully!")].
Proof.
  eexists. split; [vm_compute; reflexivity|].
  eapply (shown_video_is_the_encoded_one
            (demo_backend (Ok blank_line_content) (Ok [Byte.x01])) demo_config
            (demo_inputs None) empty_world).
  vm_compute. reflexivity.
Defined.

Lemma uploaded_music_ends_in_an_error_witness :
  exists w',
    run (demo_backend (Ok blank_line_content) (Ok [Byte.x01])) demo_config
        (demo_inputs (Some [Byte.x07; Byte.x08])) empty_world = (Ok tt, w')
    /\ ui w' = [StInfo (py "Generating scenes, images, and audio...");
                StInfo (py "Creating video...");
                StError (py "Error: 'AudioFileClip' object has no attribute 'loop'")]
    /\ exists e before c infos,
         log w' = log empty_world ++ before ++ [(c, Raised e)]
         /\ all_returned before
         /\ ui w' = ui empty_world ++ infos
                      ++ [StError (py "Error: " ++ exn_str e)]
         /\ Forall is_info infos.
Proof.
  eexists. split; [vm_compute; reflexivity|].
  split; [vm_compute; reflexivity|].
  eapply (uploaded_music_ends_in_an_error
            (demo_backend (Ok blank_line_content) (Ok [Byte.x01])) demo_config
            (demo_inputs (Some [Byte.x07; Byte.x08])) empty_world).
  - reflexivity.
  - vm_compute. reflexivity.
Defined.

Lemma video_shows_the_scenes_in_order_witness :
  exists w',
    pipeline (demo_backend (Ok blank_line_content) (Ok [Byte.x01])) demo_config
             (demo_inputs None) empty_world = (Ok tt, w')
    /\ exists content final,
         openai_chat (demo_backend (Ok blank_line_content) (Ok [Byte.x01]))
                     (log empty_world) (openai_api_key demo_config)
                     (py "gpt-4o-mini")
                     (scene_messages (text_input (demo_inputs None)))
         = Ok content
         /\ (WriteVideofile final
               (path_join (py "/tmp/t") (py "output_video.mp4"))
               24 (py "libx264") (py "aac"), Returned) ∈ log w'
         /\ length (sub_clips final)
            = length (scenes_of_content (text_input (demo_inputs None)) content)
         /\ omap caption_of (sub_clips final)
            = scenes_of_content (text_input (demo_inputs None)) content
         /\ omap still_of (sub_clips final)
            = (fun i => path_join (py "/tmp/t") (scene_png i))
                <$> seq 0 (length (scenes_of_content
                                     (text_input (demo_inputs None)) content)).
Proof.
  eexists. split; [vm_compute; reflexivity|].
  eapply (video_shows_the_scenes_in_order
            (demo_backend (Ok blank_line_content) (Ok [Byte.x01])) demo_config
            (demo_inputs None) empty_world).
  vm_compute. reflexivity.
Defined.

(** ** Timing, end to end *)

Section Timing.
Context {D : Type} `{Durations D} (be : Backend D) (cfg : Config).

Lemma appends_prefix {A} P (m : M D A) (w : World D) r w' :
  appends P m -> m w = (r, w') -> log w `prefix_of` log w'.
Proof.
  intros Hm Hrun. destruct (Hm w) as (calls & Hlog & _).
  rewrite Hrun in Hlog. simpl in Hlog. rewrite Hlog. by apply prefix_app_r.
Qed.

Lemma keyed_create_video image_files audio_files subtitles output_path
    music_path :
  appends (uses_config cfg)
          (create_video be image_files audio_files subtitles output_path
                        music_path).
Proof.
  unfold create_video, assemble, concatenate_videoclips.
  pose proof (keyed_clips_from be cfg). pose proof (keyed_add_music be cfg).
  pose proof (keyed_write_videofile be cfg).
  stage.
Qed.

Lemma keyed_save_music inp : appends (uses_config cfg) (save_music be inp).
Proof.
  unfold save_music, write_file. destruct (music_upload inp); stage.
Qed.

Lemma music_spares_mp3 dir i :
  path_join dir (py "background_music.mp3") <> path_join dir (scene_mp3 i).
Proof.
  change (scene_mp3 i)
    with (115%N :: (py "cene_" ++ str_of_nat i ++ py ".mp3")).
  by intros Heq%path_join_inj.
Qed.

Hypothesis dmax_idem : forall d : D, dmax d d = d.

(** X12: when the body of [try] returns, the i-th sub-clip of the video
    plays the file [scene_{i}.mp3] that this run wrote and lasts exactly
    as long as the bytes written to it decode to: the timing of the video
    comes from the speech generated in the same run. *)
Theorem scenes_last_as_long_as_their_speech inp (w : World D) w' :
  pipeline be cfg inp w = (Ok tt, w') ->
  exists final,
    (WriteVideofile final (path_join (temp_dir inp) (py "output_video.mp4"))
                    24 (py "libx264") (py "aac"), Returned) ∈ log w'
    /\ forall i c,
         sub_clips final !! i = Some c ->
         exists data d,
           (WriteFile (path_join (temp_dir inp) (scene_mp3 i)) data,
            Returned) ∈ log w'
           /\ decode_audio be data = Ok d
           /\ duration c = Some d
           /\ audio c
              = Some (AudioFile (path_join (temp_dir inp) (scene_mp3 i)) d).
Proof using dmax_idem.
  intros Hrun.
  apply pipeline_ok in Hrun
    as (imgs & auds & subs & w1 & mp & w2 & w3 & shown & Hgen & Hmusic
        & Hvideo & _ & ->).
  apply generate_ok in Hgen as (content & w0 & _ & _ & Hgen).
  unfold generate_assets in Hgen.
  pose proof (assets_from_ok be cfg _ _ _ _ _ _ _ _ _ Hgen) as (Hr & _).
  injection Hr as Himgs Hauds Hsubs. cbn [app] in Himgs, Hauds, Hsubs.
  apply assets_from_log in Hgen
    as (calls & Hlog1 & _ & _ & _ & Hwrote & Hall).
  pose proof (appends_prefix _ _ _ _ _ (keyed_save_music inp) Hmusic)
    as Hpre2.
  pose proof (appends_prefix _ _ _ _ _
                (keyed_create_video _ _ _ _ _) Hvideo) as Hpre3.
  simpl in Hpre3.
  apply save_music_ok in Hmusic.
  pose proof (create_video_ok _ _ _ _ _ _ _ _ _ Hvideo)
    as (final & w4 & data & Hasm & _ & Hw3).
  apply assemble_ok in Hasm as (params & w5 & Hbuilt & _ & _ & _ & Hadd).
  apply add_music_sub_clips in Hadd.
  exists final. split.
  { rewrite Hw3. simpl. rewrite !elem_of_app, !list_elem_of_singleton. tauto. }
  intros i c Hc. rewrite Hadd in Hc. unfold sub_clips, concatenated in Hc.
  cbn [picture] in Hc.
  apply lookup_zip_with_Some in Hc as (s & p & -> & Hs & Hp).
  pose proof (Forall2_lookup_lr _ _ _ _ _ _ Hbuilt Hs Hp) as [Hlen _].
  apply zip3_lookup in Hs as (_ & Haud & _).
  rewrite Hauds in Haud.
  apply list_lookup_fmap_Some in Haud as (k & Hk & Hseq).
  apply lookup_seq in Hseq as [-> Hi]. cbn [Nat.add] in Hk.
  destruct (Hall (path_join (temp_dir inp) (scene_mp3 i)))
    as [bytes Hbytes]; [apply scene_paths_mp3; lia|].
  pose proof (Hwrote _ _ _ Hbytes) as Hfile.
  assert (fs w2 !! path_join (temp_dir inp) (scene_mp3 i)
          = Some (File bytes)) as Hfile2.
  { destruct (music_upload inp) as [upload|].
    - destruct Hmusic as [_ ->].
      rewrite lookup_insert_ne by apply music_spares_mp3. done.
    - by destruct Hmusic as [_ ->]. }
  assert (s.1.2 = path_join (temp_dir inp) (scene_mp3 i)) as Hk'
    by exact Hk.
  clear Hk. rename Hk' into Hk.
  rewrite Hk in Hlen. unfold audio_length in Hlen. cbn [fs] in Hlen.
  rewrite Hfile2 in Hlen.
  destruct (decode_audio be bytes) as [d|] eqn:Hd; [|discriminate].
  injection Hlen as Hd'.
  exists bytes, d. split; [|split; [done|split]].
  - cbn [log]. apply elem_of_app. left.
    eapply elem_of_prefix; [|exact Hpre3].
    eapply elem_of_prefix; [|exact Hpre2].
    rewrite Hlog1. apply elem_of_app. by right.
  - by rewrite clip_of_duration, <- Hd', dmax_idem.
  - by rewrite clip_of_audio, Hk, <- Hd'.
Qed.
End Timing.

Lemma scenes_last_as_long_as_their_speech_witness :
  exists w',
    pipeline (demo_backend (Ok blank_line_content) (Ok [Byte.x01; Byte.x02]))
             demo_config (demo_inputs None) empty_world
    = (Ok tt, w')
    /\ exists final,
         (WriteVideofile final (path_join (py "/tmp/t") (py "output_video.mp4"))
                         24 (py "libx264") (py "aac"), Returned) ∈ log w'
         /\ forall i c,
              sub_clips final !! i = Some c ->
              exists data d,
                (WriteFile (path_join (py "/tmp/t") (scene_mp3 i)) data,
                 Returned) ∈ log w'
                /\ decode_audio
                     (demo_backend (Ok blank_line_content)
                                   (Ok [Byte.x01; Byte.x02])) data = Ok d
                /\ duration c = Some d
                /\ audio c
                   = Some (AudioFile (path_join (py "/tmp/t") (scene_mp3 i)) d).
Proof.
  eexists. split; [vm_compute; reflexivity|].
  eapply (@scenes_last_as_long_as_their_speech N N_durations
            (demo_backend (Ok blank_line_content) (Ok [Byte.x01; Byte.x02]))
            demo_config N.max_id (demo_inputs None) empty_world).
  vm_compute. reflexivity.
Defined.
